(** * online-bookstore: the book and booking controllers

    A shallow embedding of [app/controllers/BookController.js] and
    [app/controllers/BookingController.js].  An Express handler is a function
    from the request and the state of the world to the effects it had: the
    datastore calls it issued, what it passed to [next] and what it sent with
    [res.json], in the order in which they happened, and the datastore it
    left behind.  Promise chains are written with [then_] and [catch_] in
    the order of the source, because where the [.catch] stands in a chain
    decides which callbacks an exception reaches. *)

From stdpp Require Import base list sorting strings.
From Stdlib Require Import ZArith Ascii String.

Local Open Scope string_scope.
Local Open Scope list_scope.

(** ** Documents *)

(** A MongoDB ObjectId.  Only equality of identifiers is observed. *)
Definition ObjectId := nat.

(** Modelled from the spec: the schema of [models/Book] is not part of the
    sources at hand; the record shape is the one of the specification,
    Book{_id, title, author, ISBN, createdAt, updatedAt}.  A field that was
    assigned [undefined] is [None]. *)
Module BookDoc.
Record t := mk {
  _id : ObjectId;
  title : option string;
  author : option string;
  ISBN : option string;
  createdAt : nat;
  updatedAt : nat
}.

Definition set_title (v : option string) (d : t) : t :=
  mk (_id d) v (author d) (ISBN d) (createdAt d) (updatedAt d).
Definition set_author (v : option string) (d : t) : t :=
  mk (_id d) (title d) v (ISBN d) (createdAt d) (updatedAt d).
Definition set_updatedAt (v : nat) (d : t) : t :=
  mk (_id d) (title d) (author d) (ISBN d) (createdAt d) v.
End BookDoc.

(** Modelled from the spec: the schema of [models/Category], a membership
    record Category{_id, category_name, book_id}. *)
Module CategoryDoc.
Record t := mk {
  _id : ObjectId;
  category_name : string;
  book_id : ObjectId
}.
End CategoryDoc.

(** Modelled from the spec: the schema of [models/Booking],
    Booking{_id, user_id, book_id, quantity, status, createdAt, updatedAt}. *)
Module BookingDoc.
Record t := mk {
  _id : ObjectId;
  user_id : ObjectId;
  book_id : ObjectId;
  quantity : option Z;
  status : option string;
  createdAt : nat;
  updatedAt : nat
}.

Definition set_quantity (v : option Z) (d : t) : t :=
  mk (_id d) (user_id d) (book_id d) v (status d) (createdAt d) (updatedAt d).
Definition set_status (v : option string) (d : t) : t :=
  mk (_id d) (user_id d) (book_id d) (quantity d) v (createdAt d) (updatedAt d).
Definition set_updatedAt (v : nat) (d : t) : t :=
  mk (_id d) (user_id d) (book_id d) (quantity d) (status d) (createdAt d) v.
End BookingDoc.

(** The book profile: what [book.toObject()] gives for a book fetched with
    the projection [{createdAt: false, updatedAt: false}], with the
    [categories] property added to it. *)
Module Profile.
Record t := mk {
  _id : ObjectId;
  title : option string;
  author : option string;
  ISBN : option string;
  categories : list string
}.
End Profile.

(** ** Requests *)

Module User.
Record t := mk { _id : ObjectId; isModerator : bool }.
End User.

Module Params.
Record t := mk { id : ObjectId; status : option string }.
End Params.

Module Body.
Record t := mk {
  title : option string;
  author : option string;
  ISBN : option string;
  quantity : option Z;
  status : option string
}.
Definition set_status (v : option string) (b : t) : t :=
  mk (title b) (author b) (ISBN b) (quantity b) v.
End Body.

Module Query.
Record t := mk { search : option string }.
End Query.

Module Req.
Record t := mk {
  user : User.t;
  params : Params.t;
  body : Body.t;
  query : Query.t
}.
Definition set_user (u : User.t) (r : t) : t :=
  mk u (params r) (body r) (query r).
Definition set_body (b : Body.t) (r : t) : t :=
  mk (user r) (params r) b (query r).
End Req.

(** ** Errors, responses and effects *)

Inductive Err :=
| HttpError (status : nat) (message : string)
| TypeError
| DbError.

(** [createError] of the http-errors package. *)
Definition createError (status : nat) (message : string) : Err :=
  HttpError status message.

(** The objects the handlers pass to [res.json]: a message and one more
    property.  [bookings] is [None] where the handler sends [undefined]. *)
Inductive Payload :=
| books_payload (message : string) (books : list Profile.t)
| book_payload (message : string) (book : Profile.t)
| book_id_payload (message : string) (book : ObjectId)
| bookings_payload (message : string) (bookings : option (list BookingDoc.t))
| booking_id_payload (message : string) (booking : ObjectId).

Inductive Collection := Books | Categories | Bookings.

Inductive Operation :=
| op_findById | op_findOne | op_find | op_distinct | op_create | op_save.

Inductive Event :=
| Db (c : Collection) (op : Operation)
| Next (err : Err)
| Json (status : nat) (payload : Payload)
| Thrown (err : Err)
| UnhandledRejection (err : Err).

(** ** The world *)

(** The three collections in their natural order, the next fresh ObjectId,
    the clock behind the timestamps, and what the datastore will do with the
    calls to come: the n-th entry of [faults] says whether the n-th call
    from now fails, and a datastore with no entry left answers every call. *)
Record World := mkWorld {
  books : list BookDoc.t;
  categories : list CategoryDoc.t;
  bookings : list BookingDoc.t;
  next_id : ObjectId;
  now : nat;
  faults : list bool
}.

Definition set_books (v : list BookDoc.t) (w : World) : World :=
  mkWorld v (categories w) (bookings w) (next_id w) (now w) (faults w).
Definition set_bookings (v : list BookingDoc.t) (w : World) : World :=
  mkWorld (books w) (categories w) v (next_id w) (now w) (faults w).
Definition set_faults (v : list bool) (w : World) : World :=
  mkWorld (books w) (categories w) (bookings w) (next_id w) (now w) v.
(** A document was inserted: its identifier and its time are used up. *)
Definition tick (w : World) : World :=
  mkWorld (books w) (categories w) (bookings w) (S (next_id w)) (S (now w))
          (faults w).
(** A document was saved: its time is used up. *)
Definition tock (w : World) : World :=
  mkWorld (books w) (categories w) (bookings w) (next_id w) (S (now w))
          (faults w).

(** ** Promises *)

Inductive Outcome (A : Type) :=
| Fulfilled (v : A)
| Rejected (e : Err).
Arguments Fulfilled {A} v.
Arguments Rejected {A} e.

(** A promise, run to its settlement: the outcome, the world after it and
    the effects on the way. *)
Definition Promise (A : Type) : Type :=
  World -> Outcome A * World * list Event.

Definition resolve {A} (v : A) : Promise A :=
  fun w => (Fulfilled v, w, []).

Definition reject {A} (e : Err) : Promise A :=
  fun w => (Rejected e, w, []).

(** [p.then(f)]: [f] runs on the value of a fulfilled [p]; an exception in
    [f] rejects the new promise; a rejected [p] skips [f]. *)
Definition then_ {A B} (p : Promise A) (f : A -> Promise B) : Promise B :=
  fun w =>
    match p w with
    | (Fulfilled v, w1, t1) =>
        let '(o, w2, t2) := f v w1 in (o, w2, t1 ++ t2)
    | (Rejected e, w1, t1) => (Rejected e, w1, t1)
    end.

(** [p.catch(h)] for a handler that returns nothing: a fulfilled [p] passes
    through, a rejected one runs [h] and the new promise is fulfilled with
    [undefined], here [None]. *)
Definition catch_ {A} (p : Promise A) (h : Err -> Promise unit)
  : Promise (option A) :=
  fun w =>
    match p w with
    | (Fulfilled v, w1, t1) => (Fulfilled (Some v), w1, t1)
    | (Rejected e, w1, t1) =>
        match h e w1 with
        | (Fulfilled _, w2, t2) => (Fulfilled None, w2, t1 ++ t2)
        | (Rejected e', w2, t2) => (Rejected e', w2, t1 ++ t2)
        end
    end.

Definition emit (ev : Event) : Promise unit :=
  fun w => (Fulfilled tt, w, [ev]).

Definition next (err : Err) : Promise unit := emit (Next err).

(** [res.status(s).json(payload)] *)
Definition json (status : nat) (payload : Payload) : Promise unit :=
  emit (Json status payload).

(** A chain whose promise nobody keeps: it runs, and a rejection that
    reaches its end is an unhandled rejection. *)
Definition detach {A} (p : Promise A) : Promise unit :=
  fun w =>
    match p w with
    | (Fulfilled _, w1, t1) => (Fulfilled tt, w1, t1)
    | (Rejected e, w1, t1) => (Fulfilled tt, w1, t1 ++ [UnhandledRejection e])
    end.

(** ** Promises that run side by side *)

(** A promise as the event loop has it: it is settled, or it waits for the
    answer to a datastore call that is out, and [k] is what it does when
    that answer is in, up to its next wait.  A promise made of others can
    have its [verdict] while some of them still wait: the rejection that
    came first. *)
#[warnings="-register-all"]
Inductive Async (A : Type) :=
| Settled (o : Outcome A)
| Waiting (verdict : option Err)
    (k : World -> Async A * World * list Event).
Arguments Settled {A} o.
Arguments Waiting {A} verdict k.

(** Code that runs until it waits or is settled. *)
Definition Start (A : Type) : Type := World -> Async A * World * list Event.

Definition settled {A} (o : Outcome A) : Start A :=
  fun w => (Settled o, w, []).

(** [p.then(f)] on a datastore call [p], in a chain whose [.catch] hands
    the error on: the call goes out now, and [f] runs when the answer is
    in. *)
Definition await {A B} (p : Promise A) (f : A -> Start B) : Start B :=
  fun w =>
    let '(o, w1, t1) := p w in
    (Waiting None (match o with
                   | Fulfilled v => f v
                   | Rejected e => settled (Rejected e)
                   end), w1, t1).

(** The promise to its end: each answer it waits for comes in.  A verdict
    stands, whatever comes after it. *)
Fixpoint finish {A} (a : Async A) : Promise A :=
  fun w =>
    match a with
    | Settled o => (o, w, [])
    | Waiting verdict k =>
        let '(a', w1, t1) := k w in
        let '(o, w2, t2) := finish a' w1 in
        (match verdict with
         | Some e => Rejected e
         | None => o
         end, w2, t1 ++ t2)
    end.

(** The promise goes on as it would, and [g] is applied to its outcome. *)
Fixpoint and_then {A B} (g : Outcome A -> Outcome B) (a : Async A)
  : Async B :=
  match a with
  | Settled o => Settled (g o)
  | Waiting verdict k =>
      Waiting verdict
        (fun w => let '(a', w1, t1) := k w in (and_then g a', w1, t1))
  end.

Definition with_head {A} (v : A) (o : Outcome (list A)) : Outcome (list A) :=
  match o with
  | Fulfilled vs => Fulfilled (v :: vs)
  | Rejected e => Rejected e
  end.

Definition with_tail {A} (vs : list A) (o : Outcome A) : Outcome (list A) :=
  match o with
  | Fulfilled v => Fulfilled (v :: vs)
  | Rejected e => Rejected e
  end.

(** The verdict of two promises side by side, the first one being before
    the other in the list. *)
Definition first_of (verdict verdict' : option Err) : option Err :=
  match verdict with
  | Some e => Some e
  | None => verdict'
  end.

(** The rejection [e] has come: it is the outcome, and what still waits
    goes on. *)
Definition rejected {A} (e : Err) (rest : Async A) : Async A :=
  match rest with
  | Settled _ => Settled (Rejected e)
  | Waiting _ k => Waiting (Some e) k
  end.

(** A promise beside the ones after it in the list.  While both sides wait,
    the answers come in by turns, first the one for [a].  The rejection
    that comes first, in time and then in the list, is the outcome; the
    promises that still wait go on. *)
Fixpoint both {A} (a : Async A) (rest : Async (list A)) : Async (list A) :=
  match a with
  | Settled (Fulfilled v) => and_then (with_head v) rest
  | Settled (Rejected e) => rejected e rest
  | Waiting verdict k =>
      match rest with
      | Settled (Fulfilled vs) => and_then (with_tail vs) a
      | Settled (Rejected e) =>
          Waiting (first_of verdict (Some e))
            (fun w =>
               let '(a1, w1, t1) := k w in
               (and_then (fun _ => Rejected e) a1, w1, t1))
      | Waiting verdict' k' =>
          Waiting (first_of verdict verdict')
            (fun w =>
               let '(a1, w1, t1) := k w in
               let '(rest1, w2, t2) := k' w1 in
               (both a1 rest1, w2, t1 ++ t2))
      end
  end.

(** [Promise.all] of promises that were started: the list of their values,
    or the first rejection.  The answers to the calls that are out come in
    in the order in which the calls went out. *)
Definition all {A} (promises : list (Async A)) : Async (list A) :=
  fold_right both (Settled (Fulfilled [])) promises.

(** A call that gives a promise: its code runs up to its first wait. *)
Definition start {A} (s : Start A) : Promise (Async A) :=
  fun w => let '(a, w1, t1) := s w in (Fulfilled a, w1, t1).

(** [l.forEach(x => promises.push(f(x)))]: the calls are made one after the
    other, each up to its first wait, before any answer comes in. *)
Fixpoint forEach {A B} (f : A -> Start B) (l : list A)
  : Promise (list (Async B)) :=
  match l with
  | [] => resolve []
  | x :: l' =>
      then_ (start (f x)) (fun promise =>
        then_ (forEach f l') (fun promises =>
          resolve (promise :: promises)))
  end.

Notation "x <- p ;; q" := (then_ p (fun x => q))
  (at level 100, p at next level, right associativity).

(** An Express handler: the synchronous body runs, an exception that leaves
    it is [Thrown]. *)
Definition Handler := Req.t -> World -> list Event * World.

Definition handle (p : Promise unit) : World -> list Event * World :=
  fun w =>
    match p w with
    | (Fulfilled _, w1, t1) => (t1, w1)
    | (Rejected e, w1, t1) => (t1 ++ [Thrown e], w1)
    end.

(** ** The datastore *)

(** One call to the datastore: it is recorded, and it fails if the datastore
    is due to fail now. *)
Definition call (c : Collection) (op : Operation) : Promise unit :=
  fun w =>
    match faults w with
    | [] => (Fulfilled tt, w, [Db c op])
    | false :: fs => (Fulfilled tt, set_faults fs w, [Db c op])
    | true :: fs => (Rejected DbError, set_faults fs w, [Db c op])
    end.

Definition read {A} (f : World -> A) : Promise A :=
  fun w => (Fulfilled (f w), w, []).

(** Every document has an [_id]. *)
Class Document (A : Type) := document_id : A -> ObjectId.

#[global] Instance book_document : Document BookDoc.t := BookDoc._id.
#[global] Instance category_document : Document CategoryDoc.t :=
  CategoryDoc._id.
#[global] Instance booking_document : Document BookingDoc.t := BookingDoc._id.

Section Documents.
Context {A : Type} `{Document A}.

Definition has_id (id : ObjectId) (d : A) : bool :=
  Nat.eqb (document_id d) id.

(** What [save] does to a collection, [updateOne({_id: d._id}, ...)]:
    the first document with the identifier of [d] becomes [d]. *)
Fixpoint replace (d : A) (l : list A) : list A :=
  match l with
  | [] => []
  | x :: l' =>
      if has_id (document_id d) x then d :: l' else x :: replace d l'
  end.
End Documents.

(** [models/Book], with the Mongoose operations the controllers use. *)
Module Book.
Definition has_ISBN (isbn : option string) (d : BookDoc.t) : bool :=
  bool_decide (BookDoc.ISBN d = isbn).

Definition findById (id : ObjectId) : Promise (option BookDoc.t) :=
  _ <- call Books op_findById ;;
  read (fun w => List.find (has_id id) (books w)).

(** [Book.findOne({ ISBN: isbn })] *)
Definition findOne (isbn : option string) : Promise (option BookDoc.t) :=
  _ <- call Books op_findOne ;;
  read (fun w => List.find (has_ISBN isbn) (books w)).

(** [Book.distinct('_id')] *)
Definition distinct_id : Promise (list ObjectId) :=
  _ <- call Books op_distinct ;;
  read (fun w => remove_dups (BookDoc._id <$> books w)).

(** [Book.find({$text: {$search: search}}, ...)] sorted by text score.
    Matching and ranking are the datastore's: [textSearch] is any function
    from the query and the collection to the matches in rank order. *)
Definition find
  (textSearch : string -> list BookDoc.t -> list BookDoc.t)
  (search : string) : Promise (list BookDoc.t) :=
  _ <- call Books op_find ;;
  read (fun w => textSearch search (books w)).

Definition create (title author ISBN : option string)
  : Promise BookDoc.t :=
  _ <- call Books op_create ;;
  fun w =>
    let d := BookDoc.mk (next_id w) title author ISBN (now w) (now w) in
    (Fulfilled d, tick (set_books (books w ++ [d]) w), []).

(** [d.save()] of a document that was found: it is written back with a
    new [updatedAt]. *)
Definition save (d : BookDoc.t) : Promise BookDoc.t :=
  _ <- call Books op_save ;;
  fun w =>
    let d' := BookDoc.set_updatedAt (now w) d in
    (Fulfilled d', tock (set_books (replace d' (books w)) w), []).
End Book.

(** [models/Category] *)
Module Category.
(** [Category.distinct('category_name', { book_id: book_id })] *)
Definition distinct_category_name (book_id : ObjectId)
  : Promise (list string) :=
  _ <- call Categories op_distinct ;;
  read (fun w =>
    remove_dups
      (CategoryDoc.category_name <$>
         filter (fun c => CategoryDoc.book_id c = book_id) (categories w))).
End Category.

(** [models/Booking] *)
Module Booking.
(** The order of [sort: { updatedAt: -1 }]. *)
Definition newer_first (a b : BookingDoc.t) : Prop :=
  BookingDoc.updatedAt b <= BookingDoc.updatedAt a.

#[global] Instance newer_first_dec a b : Decision (newer_first a b).
Proof. unfold newer_first. apply _. Defined.

(** [Booking.find(conditions, {}, { sort: { updatedAt: -1 } })] *)
Definition find (conditions : BookingDoc.t -> bool)
  : Promise (list BookingDoc.t) :=
  _ <- call Bookings op_find ;;
  read (fun w =>
    merge_sort newer_first (List.filter conditions (bookings w))).

Definition findById (id : ObjectId) : Promise (option BookingDoc.t) :=
  _ <- call Bookings op_findById ;;
  read (fun w => List.find (has_id id) (bookings w)).

Definition create (user_id book_id : ObjectId) (quantity : option Z)
  (status : option string) : Promise BookingDoc.t :=
  _ <- call Bookings op_create ;;
  fun w =>
    let d := BookingDoc.mk (next_id w) user_id book_id quantity status
               (now w) (now w) in
    (Fulfilled d, tick (set_bookings (bookings w ++ [d]) w), []).

Definition save (d : BookingDoc.t) : Promise BookingDoc.t :=
  _ <- call Bookings op_save ;;
  fun w =>
    let d' := BookingDoc.set_updatedAt (now w) d in
    (Fulfilled d', tock (set_bookings (replace d' (bookings w)) w), []).
End Booking.

(** ** app/controllers/BookController.js *)

Module BookController.

(** [book.toObject()] of a book fetched without its timestamps, with
    [categories] assigned. *)
Definition toObject (book : BookDoc.t) (categories : list string)
  : Profile.t :=
  Profile.mk (BookDoc._id book) (BookDoc.title book) (BookDoc.author book)
             (BookDoc.ISBN book) categories.

(** The source builds the promise with [new Promise((resolve, reject) => ...)];
    each [.catch] inside hands its error to [reject] unchanged, so the
    promise settles as the chain inside it does. *)
Definition fetchBookProfile (book_id : ObjectId) : Promise Profile.t :=
  then_ (Book.findById book_id) (fun book =>
    match book with
    | None => reject (createError 404 "book not found")
    | Some book =>
        then_ (Category.distinct_category_name (BookDoc._id book))
          (fun categories => resolve (toObject book categories))
    end).

(** [fetchBookProfile] where it runs beside others: the same chain, cut at
    its two datastore calls. *)
Definition fetchBookProfile_async (book_id : ObjectId) : Start Profile.t :=
  await (Book.findById book_id) (fun book =>
    match book with
    | None => settled (Rejected (createError 404 "book not found"))
    | Some book =>
        await (Category.distinct_category_name (BookDoc._id book))
          (fun categories => settled (Fulfilled (toObject book categories)))
    end).

(** What [.then] and [.catch] do with the outcome of [Promise.all] is put
    after the last answer to the promises of the list. *)
Definition getBookProfiles (book_ids : list ObjectId)
  : Promise (list Profile.t) :=
  then_ (forEach fetchBookProfile_async book_ids) (fun promises =>
    finish (all promises)).

Definition getAllBooks : Handler := fun req => handle (
  detach (catch_
    (then_ Book.distinct_id (fun entries =>
       detach (catch_
         (then_ (getBookProfiles entries) (fun books =>
            json 200 (books_payload "books retrieved successfully" books)))
         (fun err => next err))))
    (fun err => next err))).

Definition addBook : Handler := fun req => handle (
  if negb (User.isModerator (Req.user req)) then
    next (createError 403 "user not authorized for this action")
  else
    let title := Body.title (Req.body req) in
    let author := Body.author (Req.body req) in
    let ISBN := Body.ISBN (Req.body req) in
    detach (catch_
      (then_ (Book.findOne ISBN) (fun book =>
         match book with
         | Some _ => next (createError 409 "book already in collection")
         | None =>
             detach (catch_
               (then_ (Book.create title author ISBN) (fun newBook =>
                  json 200 (book_id_payload "book successfully added"
                              (BookDoc._id newBook))))
               (fun err => next err))
         end))
      (fun err => next err))).

Definition getBook : Handler := fun req => handle (
  detach (catch_
    (then_ (fetchBookProfile (Params.id (Req.params req))) (fun book =>
       json 200 (book_payload "successfully retrieved book" book)))
    (fun err => next err))).

(** [targetBook.title = ...] on [null] throws a TypeError inside the
    [.then] callback. *)
Definition updateBook : Handler := fun req => handle (
  let targetBookID := Params.id (Req.params req) in
  detach (catch_
    (then_ (Book.findById targetBookID) (fun targetBook =>
       match targetBook with
       | None => reject TypeError
       | Some targetBook =>
           let targetBook :=
             BookDoc.set_title (Body.title (Req.body req)) targetBook in
           let targetBook :=
             BookDoc.set_author (Body.author (Req.body req)) targetBook in
           detach (catch_
             (then_ (Book.save targetBook) (fun updatedBook =>
                json 200 (book_id_payload "book updated successfully"
                            (BookDoc._id updatedBook))))
             (fun err => next err))
       end))
    (fun err => next err))).

Section Search.
Variable textSearch : string -> list BookDoc.t -> list BookDoc.t.

(** [search.length] of an absent [search] throws in the handler body.  The
    profiles of the books found run side by side, as in [getBookProfiles]. *)
Definition searchBook : Handler := fun req => handle (
  match Query.search (Req.query req) with
  | None => reject TypeError
  | Some search =>
      if Nat.eqb (String.length search) 0 then
        json 200 (books_payload "search results" [])
      else
        detach (catch_
          (then_ (Book.find textSearch search) (fun entries =>
             then_
               (forEach
                  (fun entry => fetchBookProfile_async (BookDoc._id entry))
                  entries)
               (fun promises =>
                  detach (catch_
                    (then_ (finish (all promises)) (fun books =>
                       json 200
                         (books_payload "books retrieved successfully"
                            books)))
                    (fun err => next err)))))
          (fun err => next err))
  end).
End Search.

End BookController.

(** ** app/controllers/BookingController.js *)

(** In this controller each [.catch] stands before the [.then]: after a
    failed datastore call the [.then] callback still runs, on [undefined],
    and nothing catches what that callback throws. *)
Module BookingController.

Definition forbidden : Err :=
  createError 403 "user not authorized for this action".

Definition getAllBookings : Handler := fun req => handle (
  if negb (User.isModerator (Req.user req)) then next forbidden
  else
    detach (then_
      (catch_ (Booking.find (fun _ => true)) (fun err => next err))
      (fun bookings =>
         json 200
           (bookings_payload "succesfully retrieved bookings" bookings)))).

Definition getBookingsWithStatus : Handler := fun req => handle (
  if negb (User.isModerator (Req.user req)) then next forbidden
  else
    detach (then_
      (catch_
         (Booking.find (fun d =>
            bool_decide
              (BookingDoc.status d = Params.status (Req.params req))))
         (fun err => next err))
      (fun bookings =>
         json 200
           (bookings_payload "succesfully retrieved bookings" bookings)))).

Definition getBookingsByUser : Handler := fun req => handle (
  detach (then_
    (catch_
       (Booking.find (fun d =>
          Nat.eqb (BookingDoc.user_id d) (User._id (Req.user req))))
       (fun err => next err))
    (fun bookings =>
       json 200
         (bookings_payload "succesfully retrieved user bookings"
            bookings)))).

Definition getAllBookingsForBook : Handler := fun req => handle (
  if negb (User.isModerator (Req.user req)) then next forbidden
  else
    let targetBookID := Params.id (Req.params req) in
    detach (then_
      (catch_ (Book.findById targetBookID) (fun err => next err))
      (fun book =>
         match book with
         | Some (Some _) =>
             detach (then_
               (catch_
                  (Booking.find (fun d =>
                     Nat.eqb (BookingDoc.book_id d) targetBookID))
                  (fun err => next err))
               (fun bookings =>
                  json 200
                    (bookings_payload
                       "succesfully retrieved user bookings for book"
                       bookings)))
         | _ => next (createError 404 "book does not exist")
         end))).

Definition getUserBookingsForBook : Handler := fun req => handle (
  let targetBookID := Params.id (Req.params req) in
  detach (then_
    (catch_ (Book.findById targetBookID) (fun err => next err))
    (fun book =>
       match book with
       | Some (Some _) =>
           detach (then_
             (catch_
                (Booking.find (fun d =>
                   Nat.eqb (BookingDoc.user_id d) (User._id (Req.user req))
                   && Nat.eqb (BookingDoc.book_id d) targetBookID))
                (fun err => next err))
             (fun bookings =>
                json 200
                  (bookings_payload
                     "succesfully retrieved user bookings for book"
                     bookings)))
       | _ =>
           let err := createError 404 "book does not exist" in
           next err
       end))).

(** [booking._id] of [undefined] throws a TypeError. *)
Definition addBooking : Handler := fun req => handle (
  detach (then_
    (catch_
       (Booking.create
          (User._id (Req.user req))
          (Params.id (Req.params req))
          (Body.quantity (Req.body req))
          (Some "pending"))
       (fun err => next err))
    (fun booking =>
       match booking with
       | Some booking =>
           json 200
             (booking_id_payload "successfully completed booking"
                (BookingDoc._id booking))
       | None => reject TypeError
       end))).

(** [booking.quantity = ...] on [null] or [undefined] throws a TypeError. *)
Definition updateBooking : Handler := fun req => handle (
  let targetBookingID := Params.id (Req.params req) in
  detach (then_
    (catch_ (Booking.findById targetBookingID) (fun err => next err))
    (fun booking =>
       match booking with
       | Some (Some booking) =>
           let booking :=
             BookingDoc.set_quantity (Body.quantity (Req.body req))
               booking in
           let booking :=
             BookingDoc.set_status (Body.status (Req.body req)) booking in
           detach (then_
             (catch_ (Booking.save booking) (fun err => next err))
             (fun updatedBooking =>
                match updatedBooking with
                | Some updatedBooking =>
                    json 200
                      (booking_id_payload "successfully updated booking"
                         (BookingDoc._id updatedBooking))
                | None => reject TypeError
                end))
       | _ => reject TypeError
       end))).

End BookingController.

(** ** Worlds and requests to run the handlers on *)

Module Sample.
Definition dune : BookDoc.t :=
  BookDoc.mk 1 (Some "Dune") (Some "Frank Herbert") (Some "A1") 10 10.
Definition emma : BookDoc.t :=
  BookDoc.mk 2 (Some "Emma") (Some "Jane Austen") (Some "A2") 11 11.

Definition memberships : list CategoryDoc.t :=
  [ CategoryDoc.mk 3 "Fiction" 1;
    CategoryDoc.mk 4 "Classics" 2;
    CategoryDoc.mk 5 "Fiction" 1;
    CategoryDoc.mk 6 "Desert" 1 ].

Definition order : BookingDoc.t :=
  BookingDoc.mk 7 20 1 (Some 2%Z) (Some "pending") 12 12.

Definition world : World :=
  mkWorld [dune; emma] memberships [order] 8 13 [].

Definition reader : User.t := User.mk 20 false.
Definition moderator : User.t := User.mk 21 true.

Definition request (u : User.t) (id : ObjectId) (b : Body.t)
  (search : option string) : Req.t :=
  Req.mk u (Params.mk id (Some "pending")) b (Query.mk search).

Definition no_body : Body.t := Body.mk None None None None None.

(** A text search that matches the books whose title is the query. *)
Definition by_title (search : string) (l : list BookDoc.t)
  : list BookDoc.t :=
  List.filter (fun d => bool_decide (BookDoc.title d = Some search)) l.
End Sample.

(** ** What is observed of a run *)

(** What the trace says of the datastore. *)
Definition is_db (ev : Event) : bool :=
  match ev with
  | Db _ _ => true
  | _ => false
  end.

Definition datastore_calls (t : list Event) : list Event :=
  List.filter is_db t.

Definition is_forbidden (ev : Event) : bool :=
  match ev with
  | Next (HttpError 403 _) => true
  | _ => false
  end.

(** A promise starts with [ev] when [ev] is the first of its effects, in
    every world. *)
Definition starts_with {A} (ev : Event) (p : Promise A) : Prop :=
  forall w : World, exists o w' t, p w = (o, w', ev :: t).

(** The book [updateBook] writes back, if it gets that far. *)
Definition updated (req : Req.t) (w : World) (book : BookDoc.t) : BookDoc.t :=
  BookDoc.set_updatedAt (now w)
    (BookDoc.set_author (Body.author (Req.body req))
       (BookDoc.set_title (Body.title (Req.body req)) book)).

(** The words of the specification: a query is blank when it is empty or
    made of whitespace only. *)
Definition is_space (c : ascii) : bool :=
  match c with
  | " "%char | "009"%char | "010"%char | "011"%char | "012"%char
  | "013"%char => true
  | _ => false
  end.

Fixpoint is_blank (s : string) : bool :=
  match s with
  | EmptyString => true
  | String c s' => is_space c && is_blank s'
  end.

(** The category names [Category.distinct] gives for a book. *)
Definition category_names (w : World) (book_id : ObjectId) : list string :=
  remove_dups
    (CategoryDoc.category_name <$>
       filter (fun c => CategoryDoc.book_id c = book_id) (categories w)).

(** The profile [fetchBookProfile] makes of a book. *)
Definition profile_of (w : World) (book : BookDoc.t) : Profile.t :=
  BookController.toObject book (category_names w (BookDoc._id book)).

(** What [Booking.find] gives for its conditions. *)
Definition listing (conditions : BookingDoc.t -> bool) (w : World)
  : list BookingDoc.t :=
  merge_sort Booking.newer_first (List.filter conditions (bookings w)).

(** What persists of a world. *)
Definition data (w : World)
  : list BookDoc.t * list CategoryDoc.t * list BookingDoc.t :=
  (books w, categories w, bookings w).

(** A promise keeps [f] when [f] of the world is after it what it was. *)
Definition keeps {A B} (f : World -> B) (p : Promise A) : Prop :=
  forall w : World, f (p w).1.2 = f w.

(** The answers of a handler, [next] and [res.json], and what got loose. *)
Definition is_response (ev : Event) : bool :=
  match ev with
  | Next _ | Json _ _ => true
  | _ => false
  end.

Definition responses (t : list Event) : list Event :=
  List.filter is_response t.

Definition is_loose (ev : Event) : bool :=
  match ev with
  | Thrown _ | UnhandledRejection _ => true
  | _ => false
  end.

Definition loose (t : list Event) : list Event :=
  List.filter is_loose t.

(** A quiet promise answers nothing and lets nothing loose. *)
Definition quiet {A} (p : Promise A) : Prop :=
  forall w : World, responses (p w).2 = [] /\ loose (p w).2 = [].

(** A promise that has answered once when it is fulfilled, and not at all
    when it is rejected. *)
Definition answers {A} (p : Promise A) : Prop :=
  forall w : World,
    loose (p w).2 = []
    /\ match (p w).1.1 with
       | Fulfilled _ => List.length (responses (p w).2) = 1
       | Rejected _ => responses (p w).2 = []
       end.

(** A promise that is fulfilled and has answered once. *)
Definition responds {A} (p : Promise A) : Prop :=
  forall w : World,
    loose (p w).2 = [] /\ List.length (responses (p w).2) = 1
    /\ exists v, (p w).1.1 = Fulfilled v.

(** What [fetchBookProfile] comes to on a datastore that answers, and what
    the promises of [getBookProfiles] come to together. *)
Definition fetched (w : World) (id : ObjectId) : Outcome Profile.t :=
  match List.find (has_id id) (books w) with
  | Some book => Fulfilled (profile_of w book)
  | None => Rejected (createError 404 "book not found")
  end.

Definition fetched_all (w : World) (ids : list ObjectId)
  : Outcome (list Profile.t) :=
  match mapM (fun id => profile_of w <$> List.find (has_id id) (books w))
          ids with
  | Some ps => Fulfilled ps
  | None => Rejected (createError 404 "book not found")
  end.

(** What [searchBook] answers when the search is done, on a datastore that
    answers: the profiles of the books found, or the error of a book found
    that is not in the collection. *)
Definition search_answer (w : World) (found : list BookDoc.t) : Event :=
  match fetched_all w (BookDoc._id <$> found) with
  | Fulfilled books =>
      Json 200 (books_payload "books retrieved successfully" books)
  | Rejected err => Next err
  end.

(** The step relations of [keeps] and of [quiet]. *)
Definition unchanged {B} (f : World -> B)
  : World -> World -> list Event -> Prop :=
  fun w w1 _ => f w1 = f w.

Definition calls_only : World -> World -> list Event -> Prop :=
  fun _ _ t => responses t = [] /\ loose t = [].

(** What holds of each step of a promise that runs beside others: [P]
    relates the world before the step, the world after it and its trace. *)
Fixpoint always {A} (P : World -> World -> list Event -> Prop) (a : Async A)
  : Prop :=
  match a with
  | Settled _ => True
  | Waiting _ k => forall w, let '(a', w1, t) := k w in P w w1 t /\ always P a'
  end.

Definition starts_ok {A} (P : World -> World -> list Event -> Prop)
  (s : Start A) : Prop :=
  forall w, let '(a, w1, t) := s w in P w w1 t /\ always P a.

(** A promise that, in the world [w], which it leaves as it is, comes to
    the outcome [o], and on the way calls the datastore and nothing else. *)
Fixpoint settles_in {A} (w : World) (a : Async A) (o : Outcome A) : Prop :=
  match a with
  | Settled o' => o' = o
  | Waiting verdict k =>
      let '(a', w1, t) := k w in
      w1 = w /\ responses t = [] /\ loose t = []
      /\ match verdict with
         | None => settles_in w a' o
         | Some e => o = Rejected e /\ exists o', settles_in w a' o'
         end
  end.

(** The outcome of a promise and of the ones after it in the list, put
    together by [Promise.all]: which of two rejections it is depends on
    which came first. *)
Definition joined {A} (o1 : Outcome A) (o2 o : Outcome (list A)) : Prop :=
  match o1, o2 with
  | Fulfilled v, Fulfilled vs => o = Fulfilled (v :: vs)
  | Fulfilled _, Rejected e => o = Rejected e
  | Rejected e, Fulfilled _ => o = Rejected e
  | Rejected e1, Rejected e2 => o = Rejected e1 \/ o = Rejected e2
  end.

(** * Properties *)

(** Unfolds the promise combinators, down to the worlds and traces. *)
Ltac run :=
  unfold handle, detach, then_, catch_, next, json, emit, resolve, reject,
    read, call in *.

(** ** Lookups by identifier *)

Section Lookups.
Context {A : Type} `{Document A}.

Lemma has_id_true (id : ObjectId) (d : A) :
  has_id id d = true <-> document_id d = id.
Proof. unfold has_id. apply Nat.eqb_eq. Qed.

Lemma has_id_false (id : ObjectId) (d : A) :
  has_id id d = false <-> document_id d <> id.
Proof. unfold has_id. apply Nat.eqb_neq. Qed.

Lemma find_id_some (id : ObjectId) (l : list A) (d : A) :
  List.find (has_id id) l = Some d -> d ∈ l /\ document_id d = id.
Proof.
  intros [Hin Hid]%find_some. split.
  - by apply list_elem_of_In.
  - by apply has_id_true.
Qed.

Lemma find_id_exists (id : ObjectId) (l : list A) :
  id ∈ document_id <$> l -> is_Some (List.find (has_id id) l).
Proof.
  intros (d & -> & Hin)%list_elem_of_fmap.
  destruct (List.find _ l) eqn:E; [eauto|].
  apply list_elem_of_In in Hin.
  apply (find_none _ _ E) in Hin.
  apply has_id_false in Hin. congruence.
Qed.

(** After [replace d], a lookup of the identifier of [d] finds [d]. *)
Lemma find_replace (d d0 : A) (l : list A) :
  List.find (has_id (document_id d)) l = Some d0 ->
  List.find (has_id (document_id d)) (replace d l) = Some d.
Proof.
  induction l as [|x l IH]; simpl; [done|].
  destruct (has_id (document_id d) x) eqn:E; simpl.
  - intros _. by rewrite (proj2 (has_id_true _ d)).
  - rewrite E. exact IH.
Qed.

(** ... and a lookup of another identifier finds what it found. *)
Lemma find_replace_ne (j : ObjectId) (d : A) (l : list A) :
  j <> document_id d ->
  List.find (has_id j) (replace d l) = List.find (has_id j) l.
Proof.
  intros Hne. induction l as [|x l IH]; simpl; [done|].
  destruct (has_id (document_id d) x) eqn:E; simpl.
  - apply has_id_true in E.
    rewrite (proj2 (has_id_false j x)) by congruence.
    by rewrite (proj2 (has_id_false j d)) by congruence.
  - by rewrite IH.
Qed.
End Lookups.

(** ** The book profile *)

(** C1.  For a book identifier [b] that is in the Book collection, on a
    datastore that answers, [fetchBookProfile b] is fulfilled with a profile
    that has the identifier, title, author and ISBN of a book with that
    identifier (the profile type has no timestamps), and whose [categories]
    hold each [category_name] that has a membership record for [b] in the
    Category collection, once, and nothing else.  The world is as it was. *)
Theorem fetchBookProfile_categories (w : World) (b : ObjectId) :
  faults w = [] ->
  b ∈ BookDoc._id <$> books w ->
  exists (book : BookDoc.t) (profile : Profile.t),
    book ∈ books w /\ BookDoc._id book = b /\
    BookController.fetchBookProfile b w
      = (Fulfilled profile, w, [Db Books op_findById; Db Categories op_distinct])
    /\ Profile._id profile = BookDoc._id book
    /\ Profile.title profile = BookDoc.title book
    /\ Profile.author profile = BookDoc.author book
    /\ Profile.ISBN profile = BookDoc.ISBN book
    /\ NoDup (Profile.categories profile)
    /\ forall name : string,
         name ∈ Profile.categories profile <->
         exists c : CategoryDoc.t,
           c ∈ categories w /\ CategoryDoc.category_name c = name
           /\ CategoryDoc.book_id c = b.
Proof.
  intros Hup Hb.
  destruct (find_id_exists (H:=book_document) b (books w) Hb)
    as [book Hfind].
  destruct (find_id_some _ _ _ Hfind) as [Hin Hid].
  exists book. eexists. split; [exact Hin|]. split; [exact Hid|].
  split.
  { unfold BookController.fetchBookProfile, Book.findById,
      Category.distinct_category_name. run.
    rewrite Hup. simpl. rewrite Hfind. simpl. rewrite Hup. simpl. reflexivity. }
  simpl. repeat split; try done.
  - apply NoDup_remove_dups.
  - rewrite elem_of_remove_dups, list_elem_of_fmap.
    intros (c & -> & [Hc Hcin]%list_elem_of_filter).
    exists c. change (BookDoc._id book) with (document_id book) in Hc.
    rewrite Hid in Hc. done.
  - intros (c & Hcin & <- & Hc).
    rewrite elem_of_remove_dups, list_elem_of_fmap.
    exists c. split; [done|]. apply list_elem_of_filter. split; [|done].
    change (BookDoc._id book) with (document_id book). by rewrite Hid.
Qed.

Lemma fetchBookProfile_categories_witness :
  exists (book : BookDoc.t) (profile : Profile.t),
    book ∈ books Sample.world /\ BookDoc._id book = 1 /\
    BookController.fetchBookProfile 1 Sample.world
      = (Fulfilled profile, Sample.world,
         [Db Books op_findById; Db Categories op_distinct])
    /\ Profile._id profile = BookDoc._id book
    /\ Profile.title profile = BookDoc.title book
    /\ Profile.author profile = BookDoc.author book
    /\ Profile.ISBN profile = BookDoc.ISBN book
    /\ NoDup (Profile.categories profile)
    /\ forall name : string,
         name ∈ Profile.categories profile <->
         exists c : CategoryDoc.t,
           c ∈ categories Sample.world /\ CategoryDoc.category_name c = name
           /\ CategoryDoc.book_id c = 1.
Proof.
  apply (fetchBookProfile_categories Sample.world 1).
  - reflexivity.
  - apply list_elem_of_In. simpl. left. reflexivity.
Defined.

(** On the sample world the profile of book 1 lists each of its categories
    once. *)
Example fetchBookProfile_sample :
  BookController.fetchBookProfile 1 Sample.world
  = (Fulfilled (Profile.mk 1 (Some "Dune") (Some "Frank Herbert") (Some "A1")
                  ["Fiction"; "Desert"]),
     Sample.world, [Db Books op_findById; Db Categories op_distinct]).
Proof. reflexivity. Qed.

(** The scenario of two books, of which one is in categories: [getAllBooks]
    sends both profiles; both lookups are out before the first answer is
    in. *)
Example getAllBooks_sample :
  fst (BookController.getAllBooks
         (Sample.request Sample.reader 0 Sample.no_body None)
         (mkWorld [Sample.dune; Sample.emma] [CategoryDoc.mk 3 "Fiction" 1]
            [] 4 13 []))
  = [Db Books op_distinct;
     Db Books op_findById; Db Books op_findById;
     Db Categories op_distinct; Db Categories op_distinct;
     Json 200
       (books_payload "books retrieved successfully"
          [Profile.mk 1 (Some "Dune") (Some "Frank Herbert") (Some "A1")
             ["Fiction"];
           Profile.mk 2 (Some "Emma") (Some "Jane Austen") (Some "A2") []])].
Proof. reflexivity. Qed.

(** Three profiles side by side, the second of a book that is not there,
    while the datastore fails on the categories of the first: the three
    lookups go out first, and the 404 error, which comes with the answers to
    the lookups, is before the failure in time and is the outcome. *)
Example getBookProfiles_first_rejection :
  let r := BookController.getBookProfiles [1; 9; 2]
             (set_faults [false; false; false; true] Sample.world) in
  r.1.1 = Rejected (createError 404 "book not found")
  /\ r.2 = [Db Books op_findById; Db Books op_findById; Db Books op_findById;
            Db Categories op_distinct; Db Categories op_distinct].
Proof. split; reflexivity. Qed.

(** A book that is not there: the profile is refused with the 404 error. *)
Example fetchBookProfile_absent :
  BookController.fetchBookProfile 9 Sample.world
  = (Rejected (createError 404 "book not found"), Sample.world,
     [Db Books op_findById]).
Proof. reflexivity. Qed.

(** ** Creating a book *)

Lemma find_ISBN_exists (isbn : option string) (l : list BookDoc.t) :
  (exists d : BookDoc.t, d ∈ l /\ BookDoc.ISBN d = isbn) ->
  is_Some (List.find (Book.has_ISBN isbn) l).
Proof.
  intros (d & Hin & Hd).
  destruct (List.find _ l) eqn:E; [eauto|].
  apply list_elem_of_In in Hin.
  apply (find_none _ _ E) in Hin.
  unfold Book.has_ISBN in Hin.
  by rewrite bool_decide_eq_false in Hin.
Qed.

(** When the Book collection holds a book with the ISBN of the request,
    [addBook] leaves the three collections as they were, whatever the
    datastore does. *)
Lemma addBook_conflict_frame (w : World) (req : Req.t) :
  (exists d : BookDoc.t,
     d ∈ books w /\ BookDoc.ISBN d = Body.ISBN (Req.body req)) ->
  books (snd (BookController.addBook req w)) = books w
  /\ categories (snd (BookController.addBook req w)) = categories w
  /\ bookings (snd (BookController.addBook req w)) = bookings w.
Proof.
  intros Hex. destruct (find_ISBN_exists _ _ Hex) as [d Hfind].
  unfold BookController.addBook, Book.findOne.
  destruct (User.isModerator (Req.user req)); [|done]. run. simpl.
  destruct (faults w) as [|[] fs] eqn:Hf; simpl; rewrite ?Hfind; simpl; done.
Qed.

(** C4.  When the Book collection holds a book with ISBN [x], on a
    datastore that answers, [addBook] called by a moderator with ISBN [x]
    looks the ISBN up, passes the 409 error to [next] and does nothing else:
    no book is created, and the world, the Book collection in it, is as it
    was. *)
Theorem addBook_conflict (w : World) (req : Req.t) (x : string) :
  faults w = [] ->
  User.isModerator (Req.user req) = true ->
  Body.ISBN (Req.body req) = Some x ->
  (exists d : BookDoc.t, d ∈ books w /\ BookDoc.ISBN d = Some x) ->
  BookController.addBook req w
  = ([Db Books op_findOne;
      Next (createError 409 "book already in collection")], w).
Proof.
  intros Hup Hmod Hisbn Hex.
  destruct (find_ISBN_exists _ _ Hex) as [d Hfind].
  unfold BookController.addBook, Book.findOne. rewrite Hmod, Hisbn. run.
  simpl. rewrite Hup. simpl. rewrite Hfind. reflexivity.
Qed.

Lemma addBook_conflict_witness :
  BookController.addBook
    (Sample.request Sample.moderator 0
       (Body.mk (Some "Dune Messiah") (Some "Frank Herbert") (Some "A1")
          None None) None)
    Sample.world
  = ([Db Books op_findOne;
      Next (createError 409 "book already in collection")], Sample.world).
Proof.
  apply (addBook_conflict Sample.world _ "A1").
  - reflexivity.
  - reflexivity.
  - reflexivity.
  - exists Sample.dune. split; [|reflexivity].
    apply list_elem_of_In. simpl. left. reflexivity.
Defined.

(** With an ISBN that no book has, the same call does create a book: the
    conflict above comes from the ISBN, not from the request. *)
Example addBook_fresh_ISBN :
  fst (BookController.addBook
         (Sample.request Sample.moderator 0
            (Body.mk (Some "Persuasion") (Some "Jane Austen") (Some "A3")
               None None) None)
         Sample.world)
  = [Db Books op_findOne; Db Books op_create;
     Json 200 (book_id_payload "book successfully added" 8)].
Proof. reflexivity. Qed.

(** ** Creating a booking *)

(** C5.  On a datastore that answers, [addBooking] appends one booking to
    the Booking collection; its [user_id] is the [_id] of the caller, its
    [status] is "pending", and its identifier is the one sent back.  The
    [status] of the request body has no part in it: with any other value
    there, the handler does the same. *)
Theorem addBooking_pending (w : World) (req : Req.t) :
  faults w = [] ->
  (exists booking : BookingDoc.t,
     bookings (snd (BookingController.addBooking req w))
       = bookings w ++ [booking]
     /\ BookingDoc.user_id booking = User._id (Req.user req)
     /\ BookingDoc.book_id booking = Params.id (Req.params req)
     /\ BookingDoc.quantity booking = Body.quantity (Req.body req)
     /\ BookingDoc.status booking = Some "pending"
     /\ fst (BookingController.addBooking req w)
        = [Db Bookings op_create;
           Json 200 (booking_id_payload "successfully completed booking"
                       (BookingDoc._id booking))])
  /\ forall s : option string,
       BookingController.addBooking
         (Req.set_body (Body.set_status s (Req.body req)) req) w
       = BookingController.addBooking req w.
Proof.
  intros Hup. split.
  - eexists. unfold BookingController.addBooking, Booking.create. run.
    rewrite Hup. simpl. repeat split; reflexivity.
  - intros s. reflexivity.
Qed.

Lemma addBooking_pending_witness :
  let req := Sample.request Sample.reader 2
               (Body.mk None None None (Some 3%Z) (Some "approved")) None in
  (exists booking : BookingDoc.t,
     bookings (snd (BookingController.addBooking req Sample.world))
       = bookings Sample.world ++ [booking]
     /\ BookingDoc.user_id booking = User._id (Req.user req)
     /\ BookingDoc.book_id booking = Params.id (Req.params req)
     /\ BookingDoc.quantity booking = Body.quantity (Req.body req)
     /\ BookingDoc.status booking = Some "pending"
     /\ fst (BookingController.addBooking req Sample.world)
        = [Db Bookings op_create;
           Json 200 (booking_id_payload "successfully completed booking"
                       (BookingDoc._id booking))])
  /\ forall s : option string,
       BookingController.addBooking
         (Req.set_body (Body.set_status s (Req.body req)) req) Sample.world
       = BookingController.addBooking req Sample.world.
Proof.
  apply (addBooking_pending Sample.world). reflexivity.
Defined.

(** A request that asks for "approved" gets a pending booking. *)
Example addBooking_ignores_status :
  bookings (snd (BookingController.addBooking
                   (Sample.request Sample.reader 2
                      (Body.mk None None None (Some 3%Z) (Some "approved"))
                      None)
                   Sample.world))
  = [Sample.order; BookingDoc.mk 8 20 2 (Some 3%Z) (Some "pending") 13 13].
Proof. reflexivity. Qed.

(** The caller then finds the new booking, pending, among their own. *)
Lemma addBooking_then_getBookingsByUser (w : World) (req : Req.t) :
  faults w = [] ->
  exists (booking : BookingDoc.t) (mine : list BookingDoc.t),
    fst (BookingController.getBookingsByUser req
           (snd (BookingController.addBooking req w)))
    = [Db Bookings op_find;
       Json 200 (bookings_payload "succesfully retrieved user bookings"
                   (Some mine))]
    /\ booking ∈ mine
    /\ BookingDoc._id booking = next_id w
    /\ BookingDoc.status booking = Some "pending".
Proof.
  intros Hup.
  unfold BookingController.getBookingsByUser, BookingController.addBooking,
    Booking.create, Booking.find. run. simpl. rewrite Hup. simpl.
  rewrite Hup. simpl.
  exists (BookingDoc.mk (next_id w) (User._id (Req.user req))
            (Params.id (Req.params req)) (Body.quantity (Req.body req))
            (Some "pending") (now w) (now w)).
  eexists. split; [reflexivity|].
  split; [|split; reflexivity].
  rewrite merge_sort_Permutation. apply list_elem_of_In, filter_In.
  split.
  - apply in_or_app. right. left. reflexivity.
  - simpl. apply Nat.eqb_refl.
Qed.

(** ** The listings of the moderators *)

(** C7.  For a caller who is not a moderator, [getAllBookings],
    [getBookingsWithStatus] and [getAllBookingsForBook] pass the 403 error to
    [next] and do nothing else: their trace has no datastore call, and the
    world, the faults to come included, is the one they were given. *)
Theorem listings_forbidden (w : World) (req : Req.t) :
  User.isModerator (Req.user req) = false ->
  BookingController.getAllBookings req w
    = ([Next (createError 403 "user not authorized for this action")], w)
  /\ BookingController.getBookingsWithStatus req w
    = ([Next (createError 403 "user not authorized for this action")], w)
  /\ BookingController.getAllBookingsForBook req w
    = ([Next (createError 403 "user not authorized for this action")], w)
  /\ datastore_calls (fst (BookingController.getAllBookings req w)) = []
  /\ datastore_calls (fst (BookingController.getBookingsWithStatus req w)) = []
  /\ datastore_calls (fst (BookingController.getAllBookingsForBook req w)) = [].
Proof.
  intros Hmod.
  unfold BookingController.getAllBookings,
    BookingController.getBookingsWithStatus,
    BookingController.getAllBookingsForBook.
  rewrite Hmod. repeat split.
Qed.

Lemma listings_forbidden_witness :
  let req := Sample.request Sample.reader 1 Sample.no_body None in
  let w := set_faults [true] Sample.world in
  BookingController.getAllBookings req w
    = ([Next (createError 403 "user not authorized for this action")], w)
  /\ BookingController.getBookingsWithStatus req w
    = ([Next (createError 403 "user not authorized for this action")], w)
  /\ BookingController.getAllBookingsForBook req w
    = ([Next (createError 403 "user not authorized for this action")], w)
  /\ datastore_calls (fst (BookingController.getAllBookings req w)) = []
  /\ datastore_calls (fst (BookingController.getBookingsWithStatus req w)) = []
  /\ datastore_calls (fst (BookingController.getAllBookingsForBook req w)) = [].
Proof.
  apply (listings_forbidden (set_faults [true] Sample.world)). reflexivity.
Defined.

(** A moderator does reach the datastore. *)
Example getAllBookings_moderator :
  BookingController.getAllBookings
    (Sample.request Sample.moderator 1 Sample.no_body None) Sample.world
  = ([Db Bookings op_find;
      Json 200 (bookings_payload "succesfully retrieved bookings"
                  (Some [Sample.order]))], Sample.world).
Proof. reflexivity. Qed.

(** ** Updating a booking *)

(** C2.  When no booking has the identifier of the request, on a datastore
    that answers, [updateBooking] looks the booking up and then throws a
    TypeError inside its [.then] callback, which no [.catch] follows: the
    rejection is unhandled, [next] is not called and nothing is sent, where
    a 404 error passed to [next] was to be expected.  The world is as it
    was. *)
Theorem updateBooking_absent (w : World) (req : Req.t) :
  faults w = [] ->
  List.find (has_id (Params.id (Req.params req))) (bookings w) = None ->
  BookingController.updateBooking req w
  = ([Db Bookings op_findById; UnhandledRejection TypeError], w).
Proof.
  intros Hup Hfind.
  unfold BookingController.updateBooking, Booking.findById. run. simpl.
  rewrite Hup. simpl. rewrite Hfind. reflexivity.
Qed.

Lemma updateBooking_absent_witness :
  BookingController.updateBooking
    (Sample.request Sample.reader 9
       (Body.mk None None None (Some 1%Z) (Some "approved")) None)
    Sample.world
  = ([Db Bookings op_findById; UnhandledRejection TypeError], Sample.world).
Proof.
  apply (updateBooking_absent Sample.world); reflexivity.
Defined.

(** C8.  When a booking has the identifier of the request, on a datastore
    that answers, [updateBooking] saves it and sends its identifier back,
    and [Booking.findById] then finds a booking with that identifier whose
    [quantity] and [status] are those of the request body, [None] for a
    field the body does not have, and whose [user_id], [book_id] and
    [createdAt] are those it had. *)
Theorem updateBooking_overwrites (w : World) (req : Req.t) :
  faults w = [] ->
  Params.id (Req.params req) ∈ BookingDoc._id <$> bookings w ->
  let id := Params.id (Req.params req) in
  let w' := snd (BookingController.updateBooking req w) in
  fst (BookingController.updateBooking req w)
    = [Db Bookings op_findById; Db Bookings op_save;
       Json 200 (booking_id_payload "successfully updated booking" id)]
  /\ exists old new : BookingDoc.t,
       old ∈ bookings w /\ BookingDoc._id old = id
       /\ Booking.findById id w'
          = (Fulfilled (Some new), w', [Db Bookings op_findById])
       /\ BookingDoc._id new = id
       /\ BookingDoc.quantity new = Body.quantity (Req.body req)
       /\ BookingDoc.status new = Body.status (Req.body req)
       /\ BookingDoc.user_id new = BookingDoc.user_id old
       /\ BookingDoc.book_id new = BookingDoc.book_id old
       /\ BookingDoc.createdAt new = BookingDoc.createdAt old.
Proof.
  intros Hup Hin id w'.
  destruct (find_id_exists (H:=booking_document) id (bookings w) Hin)
    as [old Hfind].
  destruct (find_id_some _ _ _ Hfind) as [Hold Hid].
  change (document_id old) with (BookingDoc._id old) in Hid.
  set (new := BookingDoc.set_updatedAt (now w)
                (BookingDoc.set_status (Body.status (Req.body req))
                   (BookingDoc.set_quantity (Body.quantity (Req.body req))
                      old))).
  assert (Hrun : BookingController.updateBooking req w
    = ([Db Bookings op_findById; Db Bookings op_save;
        Json 200 (booking_id_payload "successfully updated booking" id)],
       tock (set_bookings (replace new (bookings w)) w))).
  { unfold BookingController.updateBooking, Booking.findById, Booking.save.
    run. simpl. rewrite Hup. simpl. fold id. rewrite Hfind. simpl.
    rewrite Hup. simpl. by rewrite Hid. }
  subst w'. rewrite Hrun. simpl. split; [done|].
  exists old, new. split; [done|]. split; [done|]. split.
  - unfold Booking.findById. run. simpl. rewrite Hup. simpl.
    assert (Hnew : document_id new = id) by exact Hid.
    rewrite <- Hnew. rewrite (find_replace new old); [done|].
    by rewrite Hnew.
  - simpl. repeat split; done.
Qed.

Lemma updateBooking_overwrites_witness :
  let req := Sample.request Sample.reader 7
               (Body.mk None None None None (Some "no such status")) None in
  let id := Params.id (Req.params req) in
  let w' := snd (BookingController.updateBooking req Sample.world) in
  fst (BookingController.updateBooking req Sample.world)
    = [Db Bookings op_findById; Db Bookings op_save;
       Json 200 (booking_id_payload "successfully updated booking" id)]
  /\ exists old new : BookingDoc.t,
       old ∈ bookings Sample.world /\ BookingDoc._id old = id
       /\ Booking.findById id w'
          = (Fulfilled (Some new), w', [Db Bookings op_findById])
       /\ BookingDoc._id new = id
       /\ BookingDoc.quantity new = Body.quantity (Req.body req)
       /\ BookingDoc.status new = Body.status (Req.body req)
       /\ BookingDoc.user_id new = BookingDoc.user_id old
       /\ BookingDoc.book_id new = BookingDoc.book_id old
       /\ BookingDoc.createdAt new = BookingDoc.createdAt old.
Proof.
  apply (updateBooking_overwrites Sample.world).
  - reflexivity.
  - apply list_elem_of_In. simpl. left. reflexivity.
Defined.

(** A body with no [quantity] and a [status] outside the enumeration is
    written as it is. *)
Example updateBooking_sample :
  bookings (snd (BookingController.updateBooking
                   (Sample.request Sample.reader 7
                      (Body.mk None None None None (Some "no such status"))
                      None)
                   Sample.world))
  = [BookingDoc.mk 7 20 1 None (Some "no such status") 12 13].
Proof. reflexivity. Qed.

(** ** Updating a book *)

(** C3.  When no book has the identifier of the request, on a datastore
    that answers, [updateBook] looks the book up and then throws a TypeError
    inside its [.then] callback; the [.catch] after it passes that TypeError
    to [next], where a 404 error was to be expected.  The world is as it
    was. *)
Theorem updateBook_absent (w : World) (req : Req.t) :
  faults w = [] ->
  List.find (has_id (Params.id (Req.params req))) (books w) = None ->
  BookController.updateBook req w
  = ([Db Books op_findById; Next TypeError], w).
Proof.
  intros Hup Hfind.
  unfold BookController.updateBook, Book.findById. run. simpl.
  rewrite Hup. simpl. rewrite Hfind. reflexivity.
Qed.

Lemma updateBook_absent_witness :
  BookController.updateBook
    (Sample.request Sample.moderator 9
       (Body.mk (Some "Dune") (Some "F. Herbert") None None None) None)
    Sample.world
  = ([Db Books op_findById; Next TypeError], Sample.world).
Proof.
  apply (updateBook_absent Sample.world); reflexivity.
Defined.

(** The Book collection after [updateBook], for each thing the datastore
    can do: it is the collection as it was, or the collection with the
    updated book in the place of the book found. *)
Lemma updateBook_books (w : World) (req : Req.t) (book : BookDoc.t) :
  List.find (has_id (Params.id (Req.params req))) (books w) = Some book ->
  books (snd (BookController.updateBook req w)) = books w
  \/ books (snd (BookController.updateBook req w))
     = replace (updated req w book) (books w).
Proof.
  intros Hfind.
  unfold BookController.updateBook, Book.findById, Book.save. run. simpl.
  destruct (faults w) as [|[] [|[] fs]] eqn:Hf; simpl; rewrite ?Hfind; simpl;
    rewrite ?Hf; simpl; auto.
Qed.

(** C9.  When a book has the identifier of the request, then after
    [updateBook], whatever the datastore did, a lookup of that identifier
    finds a book with the ISBN, the identifier and the creation time that
    the book had before, and a lookup of any other identifier finds what it
    found before. *)
Theorem updateBook_keeps_ISBN (w : World) (req : Req.t) (book : BookDoc.t) :
  List.find (has_id (Params.id (Req.params req))) (books w) = Some book ->
  let w' := snd (BookController.updateBook req w) in
  (exists book' : BookDoc.t,
     List.find (has_id (Params.id (Req.params req))) (books w') = Some book'
     /\ BookDoc.ISBN book' = BookDoc.ISBN book
     /\ BookDoc._id book' = BookDoc._id book
     /\ BookDoc.createdAt book' = BookDoc.createdAt book)
  /\ forall j : ObjectId,
       j <> Params.id (Req.params req) ->
       List.find (has_id j) (books w') = List.find (has_id j) (books w).
Proof.
  intros Hfind w'.
  destruct (find_id_some _ _ _ Hfind) as [_ Hid].
  assert (Hnew : document_id (updated req w book) = Params.id (Req.params req))
    by exact Hid.
  destruct (updateBook_books w req book Hfind) as [Hsame | Hsaved];
    subst w'; [rewrite Hsame | rewrite Hsaved]; split.
  - by exists book.
  - done.
  - exists (updated req w book). split; [|done].
    rewrite <- Hnew. apply (find_replace _ book). by rewrite Hnew.
  - intros j Hj. apply find_replace_ne. by rewrite Hnew.
Qed.

Lemma updateBook_keeps_ISBN_witness :
  let req := Sample.request Sample.reader 1
               (Body.mk (Some "Dune II") None (Some "B9") None None) None in
  let w' := snd (BookController.updateBook req Sample.world) in
  (exists book' : BookDoc.t,
     List.find (has_id 1) (books w') = Some book'
     /\ BookDoc.ISBN book' = BookDoc.ISBN Sample.dune
     /\ BookDoc._id book' = BookDoc._id Sample.dune
     /\ BookDoc.createdAt book' = BookDoc.createdAt Sample.dune)
  /\ forall j : ObjectId,
       j <> 1 ->
       List.find (has_id j) (books w') = List.find (has_id j) (books Sample.world).
Proof.
  intros req.
  apply (updateBook_keeps_ISBN Sample.world req Sample.dune). reflexivity.
Defined.

(** A body that brings an ISBN and no author: the title is written, the
    author is emptied, the ISBN stays. *)
Example updateBook_sample :
  books (snd (BookController.updateBook
                (Sample.request Sample.reader 1
                   (Body.mk (Some "Dune II") None (Some "B9") None None) None)
                Sample.world))
  = [BookDoc.mk 1 (Some "Dune II") None (Some "A1") 10 13; Sample.emma].
Proof. reflexivity. Qed.

(** ** Who may update a book *)

(** [updateBook] of a book that is there, on a datastore that answers. *)
Lemma updateBook_up (w : World) (req : Req.t) (book : BookDoc.t) :
  faults w = [] ->
  List.find (has_id (Params.id (Req.params req))) (books w) = Some book ->
  BookController.updateBook req w
  = ([Db Books op_findById; Db Books op_save;
      Json 200 (book_id_payload "book updated successfully"
                  (Params.id (Req.params req)))],
     tock (set_books (replace (updated req w book) (books w)) w)).
Proof.
  intros Hup Hfind. destruct (find_id_some _ _ _ Hfind) as [_ Hid].
  unfold BookController.updateBook, Book.findById, Book.save. run. simpl.
  rewrite Hup. simpl. rewrite Hfind. simpl. rewrite Hup. simpl.
  change (BookDoc._id book) with (document_id book). by rewrite Hid.
Qed.

(** C10.  [updateBook] does not look at the caller: with any other user in
    the request, a moderator or not, it does the same; nothing in its trace
    is a 403 error; whereas [addBook], for a caller who is not a moderator,
    passes the 403 error to [next] and does nothing else.  So any caller
    overwrites any book: when a book has the identifier of the request, on a
    datastore that answers, [updateBook] with any user in the request saves
    the book and sends its identifier, and a lookup then finds the book with
    the [title] and [author] of the request body. *)
Theorem updateBook_unguarded (w : World) (req : Req.t) (u : User.t) :
  BookController.updateBook (Req.set_user u req) w
    = BookController.updateBook req w
  /\ existsb is_forbidden (fst (BookController.updateBook req w)) = false
  /\ BookController.addBook
       (Req.set_user (User.mk (User._id u) false) req) w
     = ([Next (createError 403 "user not authorized for this action")], w)
  /\ forall book : BookDoc.t,
       faults w = [] ->
       List.find (has_id (Params.id (Req.params req))) (books w)
         = Some book ->
       fst (BookController.updateBook (Req.set_user u req) w)
         = [Db Books op_findById; Db Books op_save;
            Json 200 (book_id_payload "book updated successfully"
                        (Params.id (Req.params req)))]
       /\ exists new : BookDoc.t,
            List.find (has_id (Params.id (Req.params req)))
              (books (snd (BookController.updateBook (Req.set_user u req) w)))
              = Some new
            /\ BookDoc.title new = Body.title (Req.body req)
            /\ BookDoc.author new = Body.author (Req.body req).
Proof.
  split; [reflexivity|]. split; [|split; [reflexivity|]].
  - unfold BookController.updateBook, Book.findById, Book.save. run. simpl.
    destruct (faults w) as [|[] [|[] fs]] eqn:Hf; simpl;
      try (match goal with
           | |- context [List.find ?f ?l] => destruct (List.find f l)
           end; simpl; rewrite ?Hf);
      reflexivity.
  - intros book Hup Hfind.
    change (BookController.updateBook (Req.set_user u req) w)
      with (BookController.updateBook req w).
    rewrite (updateBook_up w req book Hup Hfind). simpl. split; [done|].
    exists (updated req w book). split; [|done].
    destruct (find_id_some _ _ _ Hfind) as [_ Hid].
    assert (Hnew : document_id (updated req w book)
                   = Params.id (Req.params req)) by exact Hid.
    rewrite <- Hnew. apply (find_replace _ book). by rewrite Hnew.
Qed.

Lemma updateBook_unguarded_witness :
  let req := Sample.request Sample.moderator 2
               (Body.mk (Some "Emma, revised") (Some "anonymous") None None
                  None) None in
  let by_reader := Req.set_user Sample.reader req in
  BookController.updateBook by_reader Sample.world
    = BookController.updateBook req Sample.world
  /\ existsb is_forbidden (fst (BookController.updateBook req Sample.world))
     = false
  /\ BookController.addBook by_reader Sample.world
     = ([Next (createError 403 "user not authorized for this action")],
        Sample.world)
  /\ fst (BookController.updateBook by_reader Sample.world)
     = [Db Books op_findById; Db Books op_save;
        Json 200 (book_id_payload "book updated successfully" 2)]
  /\ exists new : BookDoc.t,
       List.find (has_id 2)
         (books (snd (BookController.updateBook by_reader Sample.world)))
         = Some new
       /\ BookDoc.title new = Some "Emma, revised"
       /\ BookDoc.author new = Some "anonymous".
Proof.
  intros req by_reader.
  destruct (updateBook_unguarded Sample.world req Sample.reader)
    as (Hsame & Hno403 & Hadd & Hover).
  split; [exact Hsame|]. split; [exact Hno403|]. split; [exact Hadd|].
  apply (Hover Sample.emma); reflexivity.
Defined.

(** A caller who is not a moderator rewrites a book that [addBook] would not
    let them create. *)
Example updateBook_by_reader :
  let req := Sample.request Sample.reader 2
               (Body.mk (Some "Emma, revised") (Some "anonymous") (Some "A9")
                  None None) None in
  fst (BookController.updateBook req Sample.world)
    = [Db Books op_findById; Db Books op_save;
       Json 200 (book_id_payload "book updated successfully" 2)]
  /\ fst (BookController.addBook req Sample.world)
    = [Next (createError 403 "user not authorized for this action")].
Proof. split; reflexivity. Qed.

(** ** Searching *)

Section StartsWith.
Context {A B : Type}.

Lemma call_starts (c : Collection) (op : Operation) :
  starts_with (Db c op) (call c op).
Proof.
  intros w. unfold call. destruct (faults w) as [|[] fs]; eauto.
Qed.

Lemma then_starts (ev : Event) (p : Promise A) (f : A -> Promise B) :
  starts_with ev p -> starts_with ev (then_ p f).
Proof.
  intros Hp w. unfold then_. destruct (Hp w) as (o & w1 & t & ->).
  destruct o as [v|e]; [|eauto].
  destruct (f v w1) as [[o2 w2] t2]. simpl. eauto.
Qed.

Lemma catch_starts (ev : Event) (p : Promise A) (h : Err -> Promise unit) :
  starts_with ev p -> starts_with ev (catch_ p h).
Proof.
  intros Hp w. unfold catch_. destruct (Hp w) as (o & w1 & t & ->).
  destruct o as [v|e]; [eauto|].
  destruct (h e w1) as [[[] w2] t2]; simpl; eauto.
Qed.

Lemma detach_starts (ev : Event) (p : Promise A) :
  starts_with ev p -> starts_with ev (detach p).
Proof.
  intros Hp w. unfold detach. destruct (Hp w) as (o & w1 & t & ->).
  destruct o; simpl; eauto.
Qed.

Lemma handle_starts (ev : Event) (p : Promise unit) (w : World) :
  starts_with ev p -> exists rest, fst (handle p w) = ev :: rest.
Proof.
  intros Hp. unfold handle. destruct (Hp w) as (o & w1 & t & ->).
  destruct o; simpl; eauto.
Qed.
End StartsWith.

Create HintDb starts.
#[local] Hint Resolve call_starts then_starts catch_starts detach_starts
  : starts.

Section SearchProperties.
Variable textSearch : string -> list BookDoc.t -> list BookDoc.t.

(** Past the test on the length, the first thing [searchBook] does is the
    text search of the datastore. *)
Lemma searchBook_searches (w : World) (req : Req.t) (search : string) :
  Query.search (Req.query req) = Some search ->
  Nat.eqb (String.length search) 0 = false ->
  exists rest : list Event,
    fst (BookController.searchBook textSearch req w)
    = Db Books op_find :: rest.
Proof.
  intros Hq Hlen.
  unfold BookController.searchBook, Book.find. rewrite Hq, Hlen.
  apply handle_starts. auto with starts.
Qed.
End SearchProperties.

(** A query of one space is blank, and [searchBook] takes it to the
    datastore. *)
Lemma searchBook_blank_counterexample :
  is_blank " " = true
  /\ BookController.searchBook Sample.by_title
       (Sample.request Sample.reader 0 Sample.no_body (Some " "))
       Sample.world
     = ([Db Books op_find;
         Json 200 (books_payload "books retrieved successfully" [])],
        Sample.world)
  /\ datastore_calls
       (fst (BookController.searchBook Sample.by_title
               (Sample.request Sample.reader 0 Sample.no_body (Some " "))
               Sample.world))
     <> [].
Proof.
  split; [reflexivity|]. split; [reflexivity|]. discriminate.
Qed.

(** * Further properties *)

(** ** Promises side by side *)

Lemma Async_induction {A} (Q : Async A -> Prop) :
  (forall o, Q (Settled o)) ->
  (forall verdict k, (forall w, Q (k w).1.1) -> Q (Waiting verdict k)) ->
  forall a, Q a.
Proof.
  intros HS HW. fix IH 1. intros [o|verdict k]; [apply HS|].
  apply HW. intros w. apply IH.
Qed.

Section Always.
Context (P : World -> World -> list Event -> Prop).
Hypothesis P_refl : forall w, P w w [].
Hypothesis P_trans :
  forall w w1 w2 t1 t2, P w w1 t1 -> P w1 w2 t2 -> P w w2 (t1 ++ t2).

Lemma always_and_then {A B} (g : Outcome A -> Outcome B) (a : Async A) :
  always P a -> always P (and_then g a).
Proof.
  induction a as [o|verdict k IH] using Async_induction; simpl; [done|].
  intros Hk w. specialize (Hk w). specialize (IH w).
  destruct (k w) as [[a' w1] t]. simpl in *. destruct Hk. auto.
Qed.

Lemma always_rejected {A} (e : Err) (rest : Async A) :
  always P rest -> always P (rejected e rest).
Proof. by destruct rest. Qed.

Lemma always_both {A} (a : Async A) (rest : Async (list A)) :
  always P a -> always P rest -> always P (both a rest).
Proof.
  revert rest. induction a as [o|verdict k IH] using Async_induction;
    intros rest Ha Hrest.
  - destruct o; simpl; [by apply always_and_then|by apply always_rejected].
  - destruct rest as [[vs|e]|verdict' k'].
    + by apply (always_and_then _ (Waiting verdict k)).
    + simpl. intros w. simpl in Ha. specialize (Ha w).
      destruct (k w) as [[a1 w1] t1]. destruct Ha as [Ht1 Ha1].
      split; [done|]. by apply always_and_then.
    + simpl. intros w. simpl in Ha, Hrest.
      specialize (Ha w). specialize (IH w).
      destruct (k w) as [[a1 w1] t1]. destruct Ha as [Ht1 Ha1].
      specialize (Hrest w1). destruct (k' w1) as [[rest1 w2] t2].
      destruct Hrest as [Ht2 Hrest1]. simpl in IH. eauto.
Qed.

Lemma always_all {A} (promises : list (Async A)) :
  Forall (always P) promises -> always P (all promises).
Proof.
  induction 1 as [|a l Ha _ IH]; simpl; [done|]. by apply always_both.
Qed.

Lemma finish_always {A} (a : Async A) (w : World) :
  always P a -> P w (finish a w).1.2 (finish a w).2.
Proof.
  revert w. induction a as [o|verdict k IH] using Async_induction;
    intros w Ha; simpl; [done|].
  specialize (Ha w). specialize (IH w).
  destruct (k w) as [[a' w1] t1]. destruct Ha as [Ht1 Ha'].
  specialize (IH w1 Ha'). simpl in IH.
  destruct (finish a' w1) as [[o w2] t2]. simpl in *. eauto.
Qed.

Lemma settled_ok {A} (o : Outcome A) : starts_ok P (settled o).
Proof. intros w. simpl. auto. Qed.

Lemma await_ok {A B} (p : Promise A) (f : A -> Start B) :
  (forall w, P w (p w).1.2 (p w).2) ->
  (forall v, starts_ok P (f v)) ->
  starts_ok P (await p f).
Proof.
  intros Hp Hf w. unfold await. specialize (Hp w).
  destruct (p w) as [[[v|e] w1] t1]; simpl in *; (split; [done|]).
  - exact (Hf v).
  - exact (settled_ok (A:=B) (Rejected e)).
Qed.

(** The calls of a [forEach] leave promises of which [P] holds, and [P]
    holds of the calls. *)
Lemma forEach_ok {A B} (f : A -> Start B) (l : list A) (w : World) :
  (forall x, starts_ok P (f x)) ->
  exists promises,
    (forEach f l w).1.1 = Fulfilled promises
    /\ Forall (always P) promises
    /\ P w (forEach f l w).1.2 (forEach f l w).2.
Proof.
  intros Hf. revert w. induction l as [|x l IH]; intros w; simpl.
  - exists []. auto.
  - unfold then_, start, resolve. specialize (Hf x w).
    destruct (f x w) as [[a w1] t1]. destruct Hf as [Ht1 Ha].
    destruct (IH w1) as (promises & Ho & Hall & Ht2).
    destruct (forEach f l w1) as [[o w2] t2]. simpl in *. subst o.
    exists (a :: promises). simpl. rewrite app_nil_r.
    split; [done|]. split; [by constructor|]. eauto.
Qed.
End Always.

(** ** What the handlers leave alone *)

Section Keeps.
Context {B : Type} (f : World -> B).
Hypothesis f_faults : forall fs w, f (set_faults fs w) = f w.

Lemma keeps_call (c : Collection) (op : Operation) : keeps f (call c op).
Proof.
  intros w. unfold call. destruct (faults w) as [|[] fs]; simpl; auto.
Qed.

Lemma keeps_read {A} (g : World -> A) : keeps f (read g).
Proof. by intros w. Qed.

Lemma keeps_resolve {A} (v : A) : keeps f (resolve v).
Proof. by intros w. Qed.

Lemma keeps_reject {A} (e : Err) : keeps f (@reject A e).
Proof. by intros w. Qed.

Lemma keeps_next (e : Err) : keeps f (next e).
Proof. by intros w. Qed.

Lemma keeps_json (s : nat) (p : Payload) : keeps f (json s p).
Proof. by intros w. Qed.

Lemma keeps_then {A C} (p : Promise A) (g : A -> Promise C) :
  keeps f p -> (forall v, keeps f (g v)) -> keeps f (then_ p g).
Proof.
  intros Hp Hg w. unfold then_. specialize (Hp w).
  destruct (p w) as [[[v|e] w1] t1]; simpl in *; [|done].
  specialize (Hg v w1). destruct (g v w1) as [[o2 w2] t2]. simpl in *.
  congruence.
Qed.

Lemma keeps_catch {A} (p : Promise A) (h : Err -> Promise unit) :
  keeps f p -> (forall e, keeps f (h e)) -> keeps f (catch_ p h).
Proof.
  intros Hp Hh w. unfold catch_. specialize (Hp w).
  destruct (p w) as [[[v|e] w1] t1]; simpl in *; [done|].
  specialize (Hh e w1). destruct (h e w1) as [[[] w2] t2]; simpl in *;
    congruence.
Qed.

Lemma keeps_detach {A} (p : Promise A) : keeps f p -> keeps f (detach p).
Proof.
  intros Hp w. unfold detach. specialize (Hp w).
  by destruct (p w) as [[[v|e] w1] t1].
Qed.

Lemma unchanged_refl (w : World) : unchanged f w w [].
Proof. done. Qed.

Lemma unchanged_trans (w w1 w2 : World) (t1 t2 : list Event) :
  unchanged f w w1 t1 -> unchanged f w1 w2 t2 -> unchanged f w w2 (t1 ++ t2).
Proof. unfold unchanged. congruence. Qed.

Lemma keeps_finish_all {A} (promises : list (Async A)) :
  Forall (always (unchanged f)) promises -> keeps f (finish (all promises)).
Proof.
  intros Hall w.
  apply (finish_always (unchanged f) unchanged_refl unchanged_trans).
  by apply (always_all (unchanged f) unchanged_trans).
Qed.

Lemma keeps_forEach {A C D} (F : C -> Start A) (l : list C)
  (G : list (Async A) -> Promise D) :
  (forall x, starts_ok (unchanged f) (F x)) ->
  (forall promises,
     Forall (always (unchanged f)) promises -> keeps f (G promises)) ->
  keeps f (then_ (forEach F l) G).
Proof.
  intros HF HG w. unfold then_.
  destruct (forEach_ok (unchanged f) unchanged_refl unchanged_trans
              F l w HF) as (promises & Ho & Hall & Hw).
  destruct (forEach F l w) as [[o w1] t1]. simpl in *. subst o.
  specialize (HG promises Hall w1).
  destruct (G promises w1) as [[o2 w2] t2]. simpl in *.
  unfold unchanged in Hw. congruence.
Qed.

Lemma fetchBookProfile_async_unchanged (id : ObjectId) :
  starts_ok (unchanged f) (BookController.fetchBookProfile_async id).
Proof.
  assert (Hcall : forall c op w, f (call c op w).1.2 = f w).
  { intros c op w. unfold call. destruct (faults w) as [|[] fs]; simpl; auto. }
  unfold BookController.fetchBookProfile_async, Book.findById,
    Category.distinct_category_name.
  apply (await_ok _ unchanged_refl).
  - intros w. unfold then_, read. specialize (Hcall Books op_findById w).
    by destruct (call Books op_findById w) as [[[] w1] t1].
  - intros [book|]; [|by apply (settled_ok _ unchanged_refl)].
    apply (await_ok _ unchanged_refl).
    + intros w. unfold then_, read.
      specialize (Hcall Categories op_distinct w).
      by destruct (call Categories op_distinct w) as [[[] w1] t1].
    + intros categories. by apply (settled_ok _ unchanged_refl).
Qed.

Lemma keeps_handle (p : Promise unit) (w : World) :
  keeps f p -> f (handle p w).2 = f w.
Proof.
  intros Hp. unfold handle. specialize (Hp w).
  by destruct (p w) as [[[v|e] w1] t1].
Qed.
End Keeps.

(** Takes a chain apart down to the datastore calls. *)
Ltac keeps_steps :=
  repeat first
    [ progress intros
    | apply keeps_handle | apply keeps_detach | apply keeps_catch
    | apply keeps_forEach | apply keeps_finish_all
    | apply fetchBookProfile_async_unchanged
    | apply keeps_then | apply keeps_call
    | apply keeps_read | apply keeps_resolve | apply keeps_reject
    | apply keeps_next | apply keeps_json
    | match goal with
      | |- keeps _ (match ?x with _ => _ end) => destruct x
      | |- keeps _ (if ?x then _ else _) => destruct x
      | |- keeps _ (let _ := _ in _) => cbv zeta
      end
    | done ].

Lemma keeps_fetchBookProfile {B} (f : World -> B) (id : ObjectId) :
  (forall fs w, f (set_faults fs w) = f w) ->
  keeps f (BookController.fetchBookProfile id).
Proof.
  intros Hf. unfold BookController.fetchBookProfile, Book.findById,
    Category.distinct_category_name. keeps_steps.
Qed.

(** X1.  The handlers that only look things up ([getAllBooks], [getBook],
    [searchBook] and the five listings of bookings) leave the three
    collections as they were, for every request and whatever the datastore
    does. *)
Theorem lookups_keep_data
  (textSearch : string -> list BookDoc.t -> list BookDoc.t)
  (req : Req.t) (w : World) :
  data (BookController.getAllBooks req w).2 = data w
  /\ data (BookController.getBook req w).2 = data w
  /\ data (BookController.searchBook textSearch req w).2 = data w
  /\ data (BookingController.getAllBookings req w).2 = data w
  /\ data (BookingController.getBookingsWithStatus req w).2 = data w
  /\ data (BookingController.getBookingsByUser req w).2 = data w
  /\ data (BookingController.getAllBookingsForBook req w).2 = data w
  /\ data (BookingController.getUserBookingsForBook req w).2 = data w.
Proof.
  assert (Hfetch := keeps_fetchBookProfile data).
  unfold BookController.getAllBooks, BookController.getBook,
    BookController.searchBook, BookController.getBookProfiles,
    BookingController.getAllBookings,
    BookingController.getBookingsWithStatus,
    BookingController.getBookingsByUser,
    BookingController.getAllBookingsForBook,
    BookingController.getUserBookingsForBook,
    Book.distinct_id, Book.find, Book.findById, Booking.find.
  repeat split; keeps_steps; apply Hfetch; done.
Qed.

Lemma keeps_Book_create {B} (f : World -> B) (title author ISBN : option string) :
  (forall fs w, f (set_faults fs w) = f w) ->
  (forall l w, f (tick (set_books l w)) = f w) ->
  keeps f (Book.create title author ISBN).
Proof.
  intros Hf Hb. unfold Book.create. apply keeps_then; [by apply keeps_call|].
  intros _ w. apply Hb.
Qed.

Lemma keeps_Book_save {B} (f : World -> B) (d : BookDoc.t) :
  (forall fs w, f (set_faults fs w) = f w) ->
  (forall l w, f (tock (set_books l w)) = f w) ->
  keeps f (Book.save d).
Proof.
  intros Hf Hb. unfold Book.save. apply keeps_then; [by apply keeps_call|].
  intros _ w. apply Hb.
Qed.

Lemma keeps_Booking_create {B} (f : World -> B) (u b : ObjectId)
  (q : option Z) (s : option string) :
  (forall fs w, f (set_faults fs w) = f w) ->
  (forall l w, f (tick (set_bookings l w)) = f w) ->
  keeps f (Booking.create u b q s).
Proof.
  intros Hf Hb. unfold Booking.create.
  apply keeps_then; [by apply keeps_call|]. intros _ w. apply Hb.
Qed.

Lemma keeps_Booking_save {B} (f : World -> B) (d : BookingDoc.t) :
  (forall fs w, f (set_faults fs w) = f w) ->
  (forall l w, f (tock (set_bookings l w)) = f w) ->
  keeps f (Booking.save d).
Proof.
  intros Hf Hb. unfold Booking.save.
  apply keeps_then; [by apply keeps_call|]. intros _ w. apply Hb.
Qed.

(** X2.  Each controller writes to its own collection only: [addBook] and
    [updateBook] leave the Category and Booking collections as they were,
    [addBooking] and [updateBooking] leave the Book and Category collections
    as they were, for every request and whatever the datastore does. *)
Theorem writers_keep_other_collections (req : Req.t) (w : World) :
  (categories (BookController.addBook req w).2 = categories w
   /\ bookings (BookController.addBook req w).2 = bookings w)
  /\ (categories (BookController.updateBook req w).2 = categories w
      /\ bookings (BookController.updateBook req w).2 = bookings w)
  /\ (books (BookingController.addBooking req w).2 = books w
      /\ categories (BookingController.addBooking req w).2 = categories w)
  /\ (books (BookingController.updateBooking req w).2 = books w
      /\ categories (BookingController.updateBooking req w).2 = categories w).
Proof.
  set (f := fun w : World => (categories w, bookings w)).
  set (g := fun w : World => (books w, categories w)).
  assert (Hf : f (BookController.addBook req w).2 = f w
               /\ f (BookController.updateBook req w).2 = f w).
  { unfold BookController.addBook, BookController.updateBook, Book.findOne,
      Book.findById.
    split; keeps_steps;
      first [apply keeps_Book_create | apply keeps_Book_save]; done. }
  assert (Hg : g (BookingController.addBooking req w).2 = g w
               /\ g (BookingController.updateBooking req w).2 = g w).
  { unfold BookingController.addBooking, BookingController.updateBooking,
      Booking.findById.
    split; keeps_steps;
      first [apply keeps_Booking_create | apply keeps_Booking_save]; done. }
  destruct Hf as [Hf1 Hf2], Hg as [Hg1 Hg2]. unfold f, g in *.
  repeat split; congruence.
Qed.

(** ** How often the handlers answer *)

Lemma responses_app (t1 t2 : list Event) :
  responses (t1 ++ t2) = responses t1 ++ responses t2.
Proof. apply List.filter_app. Qed.

Lemma loose_app (t1 t2 : list Event) : loose (t1 ++ t2) = loose t1 ++ loose t2.
Proof. apply List.filter_app. Qed.

Section Answers.
Context {A : Type}.

Lemma quiet_call (c : Collection) (op : Operation) : quiet (call c op).
Proof. intros w. unfold call. by destruct (faults w) as [|[] fs]. Qed.

Lemma quiet_read (g : World -> A) : quiet (read g).
Proof. by intros w. Qed.

Lemma quiet_resolve (v : A) : quiet (resolve v).
Proof. by intros w. Qed.

Lemma quiet_reject (e : Err) : quiet (@reject A e).
Proof. by intros w. Qed.

Lemma quiet_then {C} (p : Promise C) (g : C -> Promise A) :
  quiet p -> (forall v, quiet (g v)) -> quiet (then_ p g).
Proof.
  intros Hp Hg w. unfold then_. specialize (Hp w).
  destruct (p w) as [[[v|e] w1] t1]; simpl in *; [|done].
  specialize (Hg v w1). destruct (g v w1) as [[o2 w2] t2]. simpl in *.
  rewrite responses_app, loose_app.
  destruct Hp as [-> ->], Hg as [-> ->]. done.
Qed.

Lemma responds_next (e : Err) : responds (next e).
Proof. intros w. simpl. eauto. Qed.

Lemma responds_json (s : nat) (p : Payload) : responds (json s p).
Proof. intros w. simpl. eauto. Qed.

Lemma answers_reject (e : Err) : answers (@reject A e).
Proof. by intros w. Qed.

Lemma responds_answers (p : Promise A) : responds p -> answers p.
Proof.
  intros Hp w. destruct (Hp w) as (Hl & Hr & v & Hv).
  split; [done|]. by rewrite Hv.
Qed.

Lemma answers_then {C} (p : Promise C) (g : C -> Promise A) :
  quiet p -> (forall v, answers (g v)) -> answers (then_ p g).
Proof.
  intros Hp Hg w. unfold then_. specialize (Hp w).
  destruct (p w) as [[[v|e] w1] t1]; simpl in *; [|by destruct Hp].
  specialize (Hg v w1). destruct (g v w1) as [[o2 w2] t2]. simpl in *.
  rewrite responses_app, loose_app.
  destruct Hp as [-> ->], Hg as [-> Hg]. done.
Qed.

(** The [.catch] that ends a chain: whatever was thrown on the way, and had
    no answer yet, goes to [next]. *)
Lemma responds_catch (p : Promise A) :
  answers p -> responds (catch_ p (fun err => next err)).
Proof.
  intros Hp w. unfold catch_. specialize (Hp w).
  destruct (p w) as [[[v|e] w1] t1]; simpl in *.
  - destruct Hp as [-> ->]. eauto.
  - rewrite responses_app, loose_app. destruct Hp as [-> ->]. simpl. eauto.
Qed.

Lemma responds_detach (p : Promise A) : responds p -> responds (detach p).
Proof.
  intros Hp w. unfold detach. destruct (Hp w) as (Hl & Hr & v & Hv).
  destruct (p w) as [[o w1] t1]. simpl in *. subst o. simpl. eauto.
Qed.
End Answers.

Lemma calls_only_refl (w : World) : calls_only w w [].
Proof. done. Qed.

Lemma calls_only_trans (w w1 w2 : World) (t1 t2 : list Event) :
  calls_only w w1 t1 -> calls_only w1 w2 t2 -> calls_only w w2 (t1 ++ t2).
Proof.
  unfold calls_only. rewrite responses_app, loose_app.
  by intros [-> ->] [-> ->].
Qed.

Lemma quiet_finish_all {A} (promises : list (Async A)) :
  Forall (always calls_only) promises -> quiet (finish (all promises)).
Proof.
  intros Hall w.
  apply (finish_always calls_only calls_only_refl calls_only_trans).
  by apply (always_all calls_only calls_only_trans).
Qed.

Lemma quiet_forEach {A C D} (F : C -> Start A) (l : list C)
  (G : list (Async A) -> Promise D) :
  (forall x, starts_ok calls_only (F x)) ->
  (forall promises,
     Forall (always calls_only) promises -> quiet (G promises)) ->
  quiet (then_ (forEach F l) G).
Proof.
  intros HF HG w. unfold then_.
  destruct (forEach_ok calls_only calls_only_refl calls_only_trans
              F l w HF) as (promises & Ho & Hall & Hw).
  destruct (forEach F l w) as [[o w1] t1]. simpl in *. subst o.
  specialize (HG promises Hall w1).
  destruct (G promises w1) as [[o2 w2] t2]. simpl in *.
  apply (calls_only_trans w w1 w2); done.
Qed.

Lemma answers_forEach {A C D} (F : C -> Start A) (l : list C)
  (G : list (Async A) -> Promise D) :
  (forall x, starts_ok calls_only (F x)) ->
  (forall promises,
     Forall (always calls_only) promises -> answers (G promises)) ->
  answers (then_ (forEach F l) G).
Proof.
  intros HF HG w. unfold then_.
  destruct (forEach_ok calls_only calls_only_refl calls_only_trans
              F l w HF) as (promises & Ho & Hall & Hw).
  destruct (forEach F l w) as [[o w1] t1]. simpl in *. subst o.
  specialize (HG promises Hall w1).
  destruct (G promises w1) as [[o2 w2] t2]. simpl in *.
  rewrite responses_app, loose_app.
  destruct Hw as [-> ->], HG as [-> HG]. done.
Qed.

Lemma fetchBookProfile_async_calls_only (id : ObjectId) :
  starts_ok calls_only (BookController.fetchBookProfile_async id).
Proof.
  assert (Hcall : forall c op w, calls_only w (call c op w).1.2 (call c op w).2).
  { intros c op w. unfold call. by destruct (faults w) as [|[] fs]. }
  unfold BookController.fetchBookProfile_async, Book.findById,
    Category.distinct_category_name.
  apply (await_ok _ calls_only_refl).
  - intros w. unfold then_, read. specialize (Hcall Books op_findById w).
    destruct (call Books op_findById w) as [[[] w1] t1]; simpl in *;
      [|done].
    by rewrite app_nil_r.
  - intros [book|]; [|by apply (settled_ok _ calls_only_refl)].
    apply (await_ok _ calls_only_refl).
    + intros w. unfold then_, read.
      specialize (Hcall Categories op_distinct w).
      destruct (call Categories op_distinct w) as [[[] w1] t1]; simpl in *;
        [|done].
      by rewrite app_nil_r.
    + intros categories. by apply (settled_ok _ calls_only_refl).
Qed.

Lemma responds_handle (p : Promise unit) (w : World) :
  responds p ->
  List.length (responses (handle p w).1) = 1 /\ loose (handle p w).1 = [].
Proof.
  intros Hp. unfold handle. destruct (Hp w) as (Hl & Hr & v & Hv).
  destruct (p w) as [[o w1] t1]. simpl in *. subst o. done.
Qed.

Lemma quiet_Book_create (title author ISBN : option string) :
  quiet (Book.create title author ISBN).
Proof.
  unfold Book.create. apply quiet_then; [apply quiet_call|]. by intros _ w.
Qed.

Lemma quiet_Book_save (d : BookDoc.t) : quiet (Book.save d).
Proof.
  unfold Book.save. apply quiet_then; [apply quiet_call|]. by intros _ w.
Qed.

Lemma quiet_fetchBookProfile (id : ObjectId) :
  quiet (BookController.fetchBookProfile id).
Proof.
  unfold BookController.fetchBookProfile, Book.findById,
    Category.distinct_category_name.
  apply quiet_then; [apply quiet_then; [apply quiet_call|]; intros;
                     apply quiet_read|].
  intros [book|]; [|apply quiet_reject].
  apply quiet_then; [apply quiet_then; [apply quiet_call|]; intros;
                     apply quiet_read|].
  intros. apply quiet_resolve.
Qed.

(** Takes a chain apart down to the datastore calls. *)
Ltac answers_steps :=
  repeat first
    [ progress intros
    | match goal with
      | |- answers (match ?x with _ => _ end) => destruct x
      | |- responds (if ?x then _ else _) => destruct x
      | |- quiet (match ?x with _ => _ end) => destruct x
      | |- _ (let _ := _ in _) => cbv zeta
      end
    | apply responds_handle | apply responds_detach | apply responds_catch
    | apply responds_next | apply responds_json | apply answers_reject
    | apply quiet_Book_create | apply quiet_Book_save
    | apply quiet_fetchBookProfile
    | apply answers_forEach | apply quiet_forEach | apply quiet_finish_all
    | apply fetchBookProfile_async_calls_only
    | apply answers_then
    | apply quiet_then | apply quiet_call | apply quiet_read
    | apply quiet_resolve | apply quiet_reject
    | apply responds_answers
    | assumption ].

(** X3.  Every handler of the book controller answers once, with one call
    of [next] or one of [res.json], and lets no exception and no rejection
    loose, for every request and whatever the datastore does; [searchBook]
    does so when the request has a query, and throws when it has none. *)
Theorem BookController_answers_once
  (textSearch : string -> list BookDoc.t -> list BookDoc.t)
  (req : Req.t) (w : World) :
  (List.length (responses (BookController.getAllBooks req w).1) = 1
   /\ loose (BookController.getAllBooks req w).1 = [])
  /\ (List.length (responses (BookController.addBook req w).1) = 1
      /\ loose (BookController.addBook req w).1 = [])
  /\ (List.length (responses (BookController.getBook req w).1) = 1
      /\ loose (BookController.getBook req w).1 = [])
  /\ (List.length (responses (BookController.updateBook req w).1) = 1
      /\ loose (BookController.updateBook req w).1 = [])
  /\ match Query.search (Req.query req) with
     | Some _ =>
         List.length
           (responses (BookController.searchBook textSearch req w).1) = 1
         /\ loose (BookController.searchBook textSearch req w).1 = []
     | None =>
         BookController.searchBook textSearch req w = ([Thrown TypeError], w)
     end.
Proof.
  unfold BookController.getAllBooks, BookController.addBook,
    BookController.getBook, BookController.updateBook,
    BookController.searchBook, BookController.getBookProfiles,
    Book.distinct_id, Book.findOne, Book.findById, Book.find.
  repeat split; [answers_steps ..|].
  destruct (Query.search (Req.query req)); [|done].
  answers_steps.
Qed.

(** ** Profiles, one and many *)

Lemma call_up (c : Collection) (op : Operation) (w : World) :
  faults w = [] -> call c op w = (Fulfilled (), w, [Db c op]).
Proof. intros Hup. unfold call. by rewrite Hup. Qed.

Lemma find_id_none {A} `{Document A} (id : ObjectId) (l : list A) :
  id ∉ document_id <$> l -> List.find (has_id id) l = None.
Proof.
  intros Hid. destruct (List.find _ l) as [d|] eqn:E; [|done].
  destruct (find_id_some _ _ _ E) as [Hin <-].
  destruct Hid. apply list_elem_of_fmap. eauto.
Qed.

(** [fetchBookProfile] on a datastore that answers. *)
Lemma fetchBookProfile_up (w : World) (id : ObjectId) :
  faults w = [] ->
  BookController.fetchBookProfile id w
  = match List.find (has_id id) (books w) with
    | Some book =>
        (Fulfilled (profile_of w book), w,
         [Db Books op_findById; Db Categories op_distinct])
    | None =>
        (Rejected (createError 404 "book not found"), w,
         [Db Books op_findById])
    end.
Proof.
  intros Hup.
  unfold BookController.fetchBookProfile, Book.findById,
    Category.distinct_category_name, then_, read.
  rewrite (call_up _ _ w Hup). simpl.
  destruct (List.find _ (books w)) as [book|]; [|done].
  by rewrite (call_up _ _ w Hup).
Qed.

(** *** On a datastore that answers *)

Lemma finish_settles {A} (w : World) (a : Async A) (o : Outcome A) :
  settles_in w a o ->
  exists t, finish a w = (o, w, t) /\ responses t = [] /\ loose t = [].
Proof.
  revert o. induction a as [o'|verdict k IH] using Async_induction;
    intros o Ha; simpl in *.
  - subst o'. by exists [].
  - specialize (IH w). destruct (k w) as [[a' w1] t1].
    destruct Ha as (-> & Hr & Hl & Ha'). simpl in IH.
    destruct verdict as [e|].
    + destruct Ha' as (-> & o' & Ha').
      destruct (IH o' Ha') as (t2 & -> & Hr2 & Hl2).
      exists (t1 ++ t2).
      by rewrite responses_app, loose_app, Hr, Hl, Hr2, Hl2.
    + destruct (IH o Ha') as (t2 & -> & Hr2 & Hl2).
      exists (t1 ++ t2).
      by rewrite responses_app, loose_app, Hr, Hl, Hr2, Hl2.
Qed.

(** With any [g] the promise still comes to an end ... *)
Lemma and_then_calm {A B} (g : Outcome A -> Outcome B) (w : World)
  (a : Async A) (o : Outcome A) :
  settles_in w a o -> exists o', settles_in w (and_then g a) o'.
Proof.
  revert o. induction a as [o'|verdict k IH] using Async_induction;
    intros o; simpl.
  - intros ->. eauto.
  - specialize (IH w). destruct (k w) as [[a' w1] t1]. simpl in IH.
    intros (-> & Hr & Hl & Ha'). destruct verdict as [e|].
    + destruct Ha' as (-> & o' & Ha'). destruct (IH o' Ha') as [o'' Ho''].
      exists (Rejected e). eauto 10.
    + destruct (IH o Ha') as [o'' Ho'']. exists o''. auto.
Qed.

(** ... and with a [g] that leaves rejections as they are, to [g] of its
    outcome. *)
Lemma and_then_settles {A B} (g : Outcome A -> Outcome B) (w : World)
  (a : Async A) (o : Outcome A) :
  (forall e, g (Rejected e) = Rejected e) ->
  settles_in w a o -> settles_in w (and_then g a) (g o).
Proof.
  intros Hg. revert o.
  induction a as [o'|verdict k IH] using Async_induction; intros o; simpl.
  - by intros ->.
  - pose proof (and_then_calm g w) as Hcalm.
    specialize (IH w). specialize (Hcalm (k w).1.1).
    destruct (k w) as [[a' w1] t1]. simpl in IH, Hcalm.
    intros (-> & Hr & Hl & Ha'). destruct verdict as [e|].
    + destruct Ha' as (-> & o' & Ha'). rewrite Hg. eauto 10.
    + auto.
Qed.

Lemma both_settles {A} (w : World) (a : Async A) (rest : Async (list A))
  (o1 : Outcome A) (o2 : Outcome (list A)) :
  settles_in w a o1 -> settles_in w rest o2 ->
  exists o, settles_in w (both a rest) o /\ joined o1 o2 o.
Proof.
  revert rest o1 o2. induction a as [o'|verdict k IH] using Async_induction;
    intros rest o1 o2 Ha Hrest.
  - simpl in Ha. subst o'. destruct o1 as [v|e]; simpl.
    + exists (with_head v o2). split; [by apply and_then_settles|].
      by destruct o2.
    + exists (Rejected e). split; [|destruct o2; simpl; auto].
      destruct rest as [o2'|verdict' k']; simpl in *; [done|].
      destruct (k' w) as [[rest1 w1] t1].
      destruct Hrest as (-> & Hr & Hl & Hrest1).
      repeat split; try done. destruct verdict' as [e'|]; [|eauto].
      by destruct Hrest1 as (_ & Hex).
  - destruct rest as [[vs|e]|verdict' k'].
    + simpl in Hrest. subst o2. exists (with_tail vs o1).
      split; [by apply (and_then_settles _ w (Waiting verdict k))|].
      by destruct o1.
    + simpl in Hrest. subst o2. simpl in *.
      pose proof (and_then_calm (B:=list A) (fun _ => Rejected e) w
                    (k w).1.1) as Hcalm.
      destruct (k w) as [[a1 w1] t1]. simpl in Hcalm.
      destruct Ha as (-> & Hr & Hl & Ha1). destruct verdict as [e0|].
      * destruct Ha1 as (-> & o' & Ha1). exists (Rejected e0).
        split; [|simpl; auto]. repeat split; eauto.
      * exists (Rejected e). split; [repeat split; eauto|].
        destruct o1; simpl; auto.
    + simpl in *. specialize (IH w). destruct (k w) as [[a1 w1] t1].
      destruct Ha as (-> & Hr1 & Hl1 & Ha1).
      destruct (k' w) as [[rest1 w2] t2].
      destruct Hrest as (-> & Hr2 & Hl2 & Hrest1). simpl in IH.
      rewrite responses_app, loose_app, Hr1, Hl1, Hr2, Hl2.
      destruct verdict as [e0|]; simpl.
      * destruct Ha1 as (-> & o1' & Ha1).
        assert (exists o2', settles_in w rest1 o2') as [o2' Hrest1'].
        { destruct verdict'; [by destruct Hrest1 as (_ & Hex)|eauto]. }
        destruct (IH rest1 _ _ Ha1 Hrest1') as (o & Ho & _).
        exists (Rejected e0). split; [eauto 10|]. destruct o2; simpl; auto.
      * destruct verdict' as [e'|].
        -- destruct Hrest1 as (-> & o2' & Hrest1).
           destruct (IH rest1 _ _ Ha1 Hrest1) as (o & Ho & _).
           exists (Rejected e'). split; [eauto 10|].
           destruct o1; simpl; auto.
        -- destruct (IH rest1 _ _ Ha1 Hrest1) as (o & Ho & Hj).
           exists o. auto.
Qed.

Lemma fetchBookProfile_async_up (w : World) (id : ObjectId) :
  faults w = [] ->
  exists a,
    BookController.fetchBookProfile_async id w = (a, w, [Db Books op_findById])
    /\ settles_in w a (fetched w id).
Proof.
  intros Hup.
  unfold BookController.fetchBookProfile_async, await, Book.findById,
    Category.distinct_category_name, then_, read, fetched.
  rewrite (call_up _ _ w Hup). simpl. eexists. split; [reflexivity|].
  simpl. destruct (List.find _ (books w)) as [book|]; simpl; [|done].
  rewrite (call_up _ _ w Hup). simpl. done.
Qed.

(** Alone, the chain cut at its calls is [fetchBookProfile], whatever the
    datastore does. *)
Lemma fetchBookProfile_async_alone (id : ObjectId) (w : World) :
  then_ (start (BookController.fetchBookProfile_async id)) finish w
  = BookController.fetchBookProfile id w.
Proof.
  unfold BookController.fetchBookProfile_async,
    BookController.fetchBookProfile, await, start, settled, Book.findById,
    Category.distinct_category_name, then_, read, resolve, reject, call.
  destruct (faults w) as [|[] fs] eqn:Hf; simpl; try done;
    destruct (List.find _ (books w)) as [book|]; simpl; try done;
    rewrite ?Hf; simpl; try done;
    destruct fs as [|[] fs']; simpl; done.
Qed.

Lemma forEach_fmap {A B C} (F : B -> Start C) (h : A -> B) (l : list A) :
  forEach (fun x => F (h x)) l = forEach F (h <$> l).
Proof. induction l as [|x l IH]; [done|]. simpl. by rewrite IH. Qed.

(** The promises of [getBookProfiles], called and then brought to their
    end by [Promise.all]. *)
Lemma fetch_all_up (w : World) (ids : list ObjectId) :
  faults w = [] ->
  exists (promises : list (Async Profile.t)) (t1 t2 : list Event),
    forEach BookController.fetchBookProfile_async ids w
    = (Fulfilled promises, w, t1)
    /\ finish (all promises) w = (fetched_all w ids, w, t2)
    /\ responses (t1 ++ t2) = [] /\ loose (t1 ++ t2) = [].
Proof.
  intros Hup.
  assert (Hcalls : exists promises t1,
            forEach BookController.fetchBookProfile_async ids w
            = (Fulfilled promises, w, t1)
            /\ responses t1 = [] /\ loose t1 = []
            /\ Forall2 (fun id a => settles_in w a (fetched w id))
                 ids promises).
  { induction ids as [|id ids (promises & t1 & IH & Hr & Hl & HF)]; simpl.
    - exists [], []. repeat split; constructor.
    - destruct (fetchBookProfile_async_up w id Hup) as (a & Ha & Hs).
      unfold then_, start, resolve. rewrite Ha, IH. simpl.
      exists (a :: promises). eexists. split; [reflexivity|].
      rewrite app_nil_r. repeat split; try done. by constructor. }
  destruct Hcalls as (promises & t1 & Hrun & Hr & Hl & HF).
  assert (Hall : settles_in w (all promises) (fetched_all w ids)).
  { clear Hrun. unfold fetched_all.
    induction HF as [|id a ids promises Ha _ IH]; simpl; [done|].
    destruct (both_settles w a (all promises) _ _ Ha IH) as (o & Ho & Hj).
    replace (match _ with Some ps => Fulfilled ps | None => _ end)
      with o; [done|].
    unfold fetched in Hj.
    destruct (List.find (has_id id) (books w)) as [book|]; simpl in *;
      destruct (mapM _ ids); simpl in *; intuition. }
  destruct (finish_settles w _ _ Hall) as (t2 & Hfin & Hr2 & Hl2).
  exists promises, t1, t2.
  by rewrite responses_app, loose_app, Hr, Hl, Hr2, Hl2.
Qed.

(** [getBookProfiles] on a datastore that answers: the profiles of all the
    books, if each identifier has one, and the 404 error if one has none. *)
Lemma getBookProfiles_up (w : World) (ids : list ObjectId) :
  faults w = [] ->
  exists t : list Event,
    BookController.getBookProfiles ids w
    = (match mapM (fun id => profile_of w <$> List.find (has_id id) (books w))
               ids with
       | Some ps => Fulfilled ps
       | None => Rejected (createError 404 "book not found")
       end, w, t)
    /\ responses t = [] /\ loose t = [].
Proof.
  intros Hup.
  destruct (fetch_all_up w ids Hup) as (promises & t1 & t2 & Hrun & Hfin & Hq).
  exists (t1 ++ t2). split; [|done].
  unfold BookController.getBookProfiles, then_. by rewrite Hrun, Hfin.
Qed.

(** Identifiers that all have a book have their profiles. *)
Lemma profiles_found (w : World) (ids : list ObjectId) :
  (forall id, id ∈ ids -> id ∈ BookDoc._id <$> books w) ->
  exists ps : list Profile.t,
    mapM (fun id => profile_of w <$> List.find (has_id id) (books w)) ids
    = Some ps
    /\ Forall2
         (fun id p =>
            exists book : BookDoc.t,
              book ∈ books w /\ BookDoc._id book = id
              /\ p = profile_of w book)
         ids ps.
Proof.
  intros Hids.
  destruct (mapM _ ids) as [ps|] eqn:E.
  - exists ps. split; [done|]. apply mapM_Some in E.
    eapply Forall2_impl; [exact E|]. intros id p Hp. simpl in Hp.
    destruct (List.find (has_id id) (books w)) as [book|] eqn:Hf; [|done].
    destruct (find_id_some _ _ _ Hf) as [Hin Hid].
    exists book. injection Hp as <-. done.
  - exfalso. apply mapM_None, Exists_exists in E as (id & Hin & Hnone).
    destruct (find_id_exists (H:=book_document) id (books w) (Hids id Hin))
      as [book Hf].
    by rewrite Hf in Hnone.
Qed.

(** The profiles of identifiers that all have a book. *)
Lemma getBookProfiles_found (w : World) (ids : list ObjectId) :
  faults w = [] ->
  (forall id, id ∈ ids -> id ∈ BookDoc._id <$> books w) ->
  exists (ps : list Profile.t) (t : list Event),
    BookController.getBookProfiles ids w = (Fulfilled ps, w, t)
    /\ responses t = [] /\ loose t = []
    /\ Forall2
         (fun id p =>
            exists book : BookDoc.t,
              book ∈ books w /\ BookDoc._id book = id
              /\ p = profile_of w book)
         ids ps.
Proof.
  intros Hup Hids.
  destruct (getBookProfiles_up w ids Hup) as (t & Hrun & Hr & Hl).
  destruct (mapM _ ids) as [ps|] eqn:E.
  - exists ps, t. repeat split; try done.
    apply mapM_Some in E.
    eapply Forall2_impl; [exact E|]. intros id p Hp. simpl in Hp.
    destruct (List.find (has_id id) (books w)) as [book|] eqn:Hf; [|done].
    destruct (find_id_some _ _ _ Hf) as [Hin Hid].
    exists book. injection Hp as <-. done.
  - exfalso. apply mapM_None, Exists_exists in E as (id & Hin & Hnone).
    destruct (find_id_exists (H:=book_document) id (books w) (Hids id Hin))
      as [book Hf].
    by rewrite Hf in Hnone.
Qed.

Lemma profiles_ids (w : World) (ids : list ObjectId) (ps : list Profile.t) :
  Forall2
    (fun id p =>
       exists book : BookDoc.t,
         book ∈ books w /\ BookDoc._id book = id /\ p = profile_of w book)
    ids ps ->
  Profile._id <$> ps = ids.
Proof.
  induction 1 as [|id p ids ps Hp _ IH]; [done|].
  destruct Hp as (book & _ & <- & ->). rewrite fmap_cons, IH. done.
Qed.

Lemma profiles_books (w : World) (ids : list ObjectId) (ps : list Profile.t) :
  Forall2
    (fun id p =>
       exists book : BookDoc.t,
         book ∈ books w /\ BookDoc._id book = id /\ p = profile_of w book)
    ids ps ->
  Forall (fun p => exists book : BookDoc.t,
                     book ∈ books w /\ p = profile_of w book) ps.
Proof.
  induction 1 as [|id p ids ps Hp _ IH]; constructor; [|done].
  destruct Hp as (book & Hin & _ & ->). eauto.
Qed.

(** X4.  On a datastore that answers, [getBookProfiles], given identifiers
    that all have a book, is fulfilled with one profile for each identifier,
    in the order of the identifiers; each is the profile of a book with that
    identifier, with its categories.  The world is as it was. *)
Theorem getBookProfiles_in_order (w : World) (ids : list ObjectId) :
  faults w = [] ->
  (forall id, id ∈ ids -> id ∈ BookDoc._id <$> books w) ->
  exists (ps : list Profile.t) (t : list Event),
    BookController.getBookProfiles ids w = (Fulfilled ps, w, t)
    /\ Profile._id <$> ps = ids
    /\ Forall2
         (fun id p =>
            exists book : BookDoc.t,
              book ∈ books w /\ BookDoc._id book = id
              /\ p = profile_of w book)
         ids ps.
Proof.
  intros Hup Hids.
  destruct (getBookProfiles_found w ids Hup Hids) as (ps & t & Hrun & _ & _ & HF).
  exists ps, t. split; [done|]. split; [|done].
  by apply (profiles_ids w).
Qed.

Lemma getBookProfiles_in_order_witness :
  exists (ps : list Profile.t) (t : list Event),
    BookController.getBookProfiles [2; 1; 2] Sample.world
    = (Fulfilled ps, Sample.world, t)
    /\ Profile._id <$> ps = [2; 1; 2]
    /\ Forall2
         (fun id p =>
            exists book : BookDoc.t,
              book ∈ books Sample.world /\ BookDoc._id book = id
              /\ p = profile_of Sample.world book)
         [2; 1; 2] ps.
Proof.
  apply (getBookProfiles_in_order Sample.world [2; 1; 2]).
  - reflexivity.
  - intros id Hid. apply list_elem_of_In. apply list_elem_of_In in Hid.
    simpl in *. intuition.
Defined.

(** X5.  On a datastore that answers, [getBookProfiles], given a list in
    which some identifier has no book, is rejected with the 404 error: no
    profile of the others comes back.  The world is as it was. *)
Theorem getBookProfiles_absent (w : World) (ids : list ObjectId)
  (id : ObjectId) :
  faults w = [] ->
  id ∈ ids ->
  id ∉ BookDoc._id <$> books w ->
  exists t : list Event,
    BookController.getBookProfiles ids w
    = (Rejected (createError 404 "book not found"), w, t).
Proof.
  intros Hup Hin Hid.
  destruct (getBookProfiles_up w ids Hup) as (t & Hrun & _).
  exists t. rewrite Hrun.
  assert (mapM (fun id => profile_of w <$> List.find (has_id id) (books w))
            ids = None) as ->; [|done].
  apply mapM_None, Exists_exists. exists id. split; [done|].
  by rewrite (find_id_none (H:=book_document) id (books w) Hid).
Qed.

Lemma getBookProfiles_absent_witness :
  exists t : list Event,
    BookController.getBookProfiles [1; 9; 2] Sample.world
    = (Rejected (createError 404 "book not found"), Sample.world, t).
Proof.
  apply (getBookProfiles_absent Sample.world [1; 9; 2] 9).
  - reflexivity.
  - apply list_elem_of_In. simpl. auto.
  - intros Hin. apply list_elem_of_In in Hin. simpl in Hin.
    intuition discriminate.
Defined.

(** X6.  On a datastore that answers, [getAllBooks] sends with status 200
    one profile for each identifier of the Book collection, each identifier
    once, in the order in which [Book.distinct] gave the identifiers; each
    profile is that of a book of the collection, with its categories.  It calls the datastore and
    nothing else before it answers, and the world is as it was. *)
Theorem getAllBooks_every_book (req : Req.t) (w : World) :
  faults w = [] ->
  exists (ps : list Profile.t) (t : list Event),
    BookController.getAllBooks req w
    = (Db Books op_distinct :: t
         ++ [Json 200 (books_payload "books retrieved successfully" ps)], w)
    /\ responses t = [] /\ loose t = []
    /\ Profile._id <$> ps = remove_dups (BookDoc._id <$> books w)
    /\ Forall (fun p => exists book : BookDoc.t,
                          book ∈ books w /\ p = profile_of w book) ps.
Proof.
  intros Hup.
  destruct (getBookProfiles_found w (remove_dups (BookDoc._id <$> books w))
              Hup) as (ps & t & Hrun & Hr & Hl & HF).
  { intros id. by rewrite elem_of_remove_dups. }
  exists ps, t. split.
  - unfold BookController.getAllBooks, Book.distinct_id, handle, detach,
      catch_, then_, read, json, emit.
    rewrite (call_up _ _ w Hup). cbn beta iota. rewrite Hrun. simpl.
    by rewrite ?app_nil_r.
  - repeat split; try done.
    + by apply (profiles_ids w).
    + by apply (profiles_books w _ _ HF).
Qed.

Lemma getAllBooks_every_book_witness :
  exists (ps : list Profile.t) (t : list Event),
    BookController.getAllBooks
      (Sample.request Sample.reader 0 Sample.no_body None) Sample.world
    = (Db Books op_distinct :: t
         ++ [Json 200 (books_payload "books retrieved successfully" ps)],
       Sample.world)
    /\ responses t = [] /\ loose t = []
    /\ Profile._id <$> ps = remove_dups (BookDoc._id <$> books Sample.world)
    /\ Forall (fun p => exists book : BookDoc.t,
                 book ∈ books Sample.world
                 /\ p = profile_of Sample.world book) ps.
Proof.
  apply (getAllBooks_every_book _ Sample.world). reflexivity.
Defined.

(** X7.  On a datastore that answers, [getBook] sends the profile of the
    book with status 200 when a book has the identifier of the request, and
    passes the 404 error to [next], without asking for categories, when none
    has.  The world is as it was. *)
Theorem getBook_profile_or_404 (req : Req.t) (w : World) :
  faults w = [] ->
  BookController.getBook req w
  = match List.find (has_id (Params.id (Req.params req))) (books w) with
    | Some book =>
        ([Db Books op_findById; Db Categories op_distinct;
          Json 200 (book_payload "successfully retrieved book"
                      (profile_of w book))], w)
    | None =>
        ([Db Books op_findById; Next (createError 404 "book not found")], w)
    end.
Proof.
  intros Hup.
  unfold BookController.getBook, handle, detach, catch_, then_ at 1.
  rewrite (fetchBookProfile_up w _ Hup).
  by destruct (List.find _ (books w)).
Qed.

Lemma getBook_profile_or_404_witness :
  BookController.getBook
    (Sample.request Sample.reader 9 Sample.no_body None) Sample.world
  = ([Db Books op_findById; Next (createError 404 "book not found")],
     Sample.world).
Proof.
  apply (getBook_profile_or_404
           (Sample.request Sample.reader 9 Sample.no_body None)
           Sample.world).
  reflexivity.
Defined.

(** ** The query that is searched for *)

(** [searchBook] on a datastore that answers, past the test on the length:
    the search is made with the query of the request, and the answer is
    made of what it finds. *)
Lemma searchBook_up
  (textSearch : string -> list BookDoc.t -> list BookDoc.t)
  (w : World) (req : Req.t) (search : string) :
  faults w = [] ->
  Query.search (Req.query req) = Some search ->
  Nat.eqb (String.length search) 0 = false ->
  exists t : list Event,
    BookController.searchBook textSearch req w
    = (Db Books op_find
         :: t ++ [search_answer w (textSearch search (books w))], w)
    /\ responses t = [] /\ loose t = [].
Proof.
  intros Hup Hq Hlen.
  destruct (fetch_all_up w (BookDoc._id <$> textSearch search (books w)) Hup)
    as (promises & t1 & t2 & Hrun & Hfin & Hr & Hl).
  exists (t1 ++ t2). split; [|done].
  unfold BookController.searchBook. rewrite Hq, Hlen.
  unfold Book.find, handle, detach, catch_, then_, read, json, next, emit.
  rewrite (call_up _ _ w Hup). cbn beta iota.
  rewrite forEach_fmap, Hrun, Hfin. unfold search_answer.
  destruct (fetched_all w _) as [books|err]; simpl;
    by rewrite ?app_nil_r, <- ?app_assoc.
Qed.

(** C6, as the code has it.  For a request with a query [search]:
    when [search] has length 0, [searchBook] sends the empty sequence with
    status 200 and does nothing else, the world is the one it was given;
    when [search] has any other length, the whitespace-only queries
    included, the first thing it does is the text search of the datastore,
    and on a datastore that answers the search is made with [search] as it
    is and the answer is made of what it finds: with status 200 the profiles
    of the books found, in the order of the search, no profile when it finds
    no book, or the 404 error to [next] when a book found is not in the
    collection. *)
Theorem searchBook_empty_query
  (textSearch : string -> list BookDoc.t -> list BookDoc.t)
  (w : World) (req : Req.t) (search : string) :
  Query.search (Req.query req) = Some search ->
  if Nat.eqb (String.length search) 0
  then BookController.searchBook textSearch req w
       = ([Json 200 (books_payload "search results" [])], w)
  else (exists rest : list Event,
          fst (BookController.searchBook textSearch req w)
          = Db Books op_find :: rest)
       /\ (faults w = [] ->
           exists t : list Event,
             BookController.searchBook textSearch req w
             = (Db Books op_find
                  :: t ++ [search_answer w (textSearch search (books w))],
                w)
             /\ responses t = [] /\ loose t = []).
Proof.
  intros Hq. destruct (Nat.eqb (String.length search) 0) eqn:Hlen.
  - unfold BookController.searchBook. rewrite Hq, Hlen. reflexivity.
  - split.
    + by apply (searchBook_searches textSearch w req search).
    + intros Hup. by apply (searchBook_up textSearch w req search).
Qed.

Lemma searchBook_empty_query_witness :
  BookController.searchBook Sample.by_title
    (Sample.request Sample.reader 0 Sample.no_body (Some ""))
    (set_faults [true] Sample.world)
  = ([Json 200 (books_payload "search results" [])],
     set_faults [true] Sample.world)
  /\ (exists rest : list Event,
        fst (BookController.searchBook Sample.by_title
               (Sample.request Sample.reader 0 Sample.no_body (Some "Emma"))
               Sample.world)
        = Db Books op_find :: rest)
  /\ exists t : list Event,
       BookController.searchBook Sample.by_title
         (Sample.request Sample.reader 0 Sample.no_body (Some "Emma"))
         Sample.world
       = (Db Books op_find
            :: t ++ [Json 200
                       (books_payload "books retrieved successfully"
                          [Profile.mk 2 (Some "Emma") (Some "Jane Austen")
                             (Some "A2") ["Classics"]])],
          Sample.world)
       /\ responses t = [] /\ loose t = [].
Proof.
  split.
  - apply (searchBook_empty_query Sample.by_title
             (set_faults [true] Sample.world)
             (Sample.request Sample.reader 0 Sample.no_body (Some "")) "").
    reflexivity.
  - destruct (searchBook_empty_query Sample.by_title Sample.world
                (Sample.request Sample.reader 0 Sample.no_body (Some "Emma"))
                "Emma" eq_refl) as [Hfirst Hanswer].
    split; [exact Hfirst|]. apply Hanswer. reflexivity.
Defined.

(** X8.  On a datastore that answers, when the text search gives books of
    the collection, [searchBook] with a query that is not empty sends with
    status 200 the profiles of the books found, in the order of the search;
    the world is as it was. *)
Theorem searchBook_in_rank_order
  (textSearch : string -> list BookDoc.t -> list BookDoc.t)
  (req : Req.t) (w : World) (search : string) :
  faults w = [] ->
  Query.search (Req.query req) = Some search ->
  search <> "" ->
  (forall d, d ∈ textSearch search (books w) -> d ∈ books w) ->
  exists (ps : list Profile.t) (t : list Event),
    BookController.searchBook textSearch req w
    = (Db Books op_find :: t
         ++ [Json 200 (books_payload "books retrieved successfully" ps)], w)
    /\ responses t = [] /\ loose t = []
    /\ Profile._id <$> ps = BookDoc._id <$> textSearch search (books w)
    /\ Forall (fun p => exists book : BookDoc.t,
                          book ∈ books w /\ p = profile_of w book) ps.
Proof.
  intros Hup Hq Hne Hsub.
  destruct (profiles_found w (BookDoc._id <$> textSearch search (books w)))
    as (ps & Hps & HF).
  { intros id (d & -> & Hd)%list_elem_of_fmap.
    apply list_elem_of_fmap. eauto. }
  destruct (fetch_all_up w (BookDoc._id <$> textSearch search (books w)) Hup)
    as (promises & t1 & t2 & Hrun & Hfin & Hr & Hl).
  unfold fetched_all in Hfin. rewrite Hps in Hfin.
  exists ps, (t1 ++ t2). split.
  - unfold BookController.searchBook. rewrite Hq.
    assert (Nat.eqb (String.length search) 0 = false) as ->.
    { destruct search; [done|reflexivity]. }
    unfold Book.find, handle, detach, catch_, then_, read, json, emit.
    rewrite (call_up _ _ w Hup). cbn beta iota.
    rewrite forEach_fmap, Hrun, Hfin. simpl.
    by rewrite ?app_nil_r, <- ?app_assoc.
  - repeat split; try done.
    + by apply (profiles_ids w).
    + by apply (profiles_books w _ _ HF).
Qed.

Lemma searchBook_in_rank_order_witness :
  exists (ps : list Profile.t) (t : list Event),
    BookController.searchBook Sample.by_title
      (Sample.request Sample.reader 0 Sample.no_body (Some "Emma"))
      Sample.world
    = (Db Books op_find :: t
         ++ [Json 200 (books_payload "books retrieved successfully" ps)],
       Sample.world)
    /\ responses t = [] /\ loose t = []
    /\ Profile._id <$> ps
       = BookDoc._id <$> Sample.by_title "Emma" (books Sample.world)
    /\ Forall (fun p => exists book : BookDoc.t,
                 book ∈ books Sample.world
                 /\ p = profile_of Sample.world book) ps.
Proof.
  apply (searchBook_in_rank_order Sample.by_title
           (Sample.request Sample.reader 0 Sample.no_body (Some "Emma"))
           Sample.world "Emma").
  - reflexivity.
  - reflexivity.
  - discriminate.
  - intros d Hd. apply list_elem_of_In. apply list_elem_of_In in Hd.
    unfold Sample.by_title in Hd. apply filter_In in Hd. tauto.
Defined.

(** ** Books that are created and updated *)

Lemma find_ISBN_none (isbn : option string) (l : list BookDoc.t) :
  List.find (Book.has_ISBN isbn) l = None <-> isbn ∉ BookDoc.ISBN <$> l.
Proof.
  split.
  - intros Hnone (d & -> & Hin)%list_elem_of_fmap.
    apply list_elem_of_In in Hin. apply (find_none _ _ Hnone) in Hin.
    unfold Book.has_ISBN in Hin. by rewrite bool_decide_eq_false in Hin.
  - intros Hnot. destruct (List.find _ l) as [d|] eqn:E; [|done].
    apply find_some in E as [Hin Hd]. destruct Hnot.
    apply list_elem_of_fmap. exists d. split; [|by apply list_elem_of_In].
    unfold Book.has_ISBN in Hd. by rewrite bool_decide_eq_true in Hd.
Qed.

(** The book [addBook] inserts, if it gets that far. *)
Lemma addBook_books (req : Req.t) (w : World) :
  books (BookController.addBook req w).2 = books w
  \/ (List.find (Book.has_ISBN (Body.ISBN (Req.body req))) (books w) = None
      /\ books (BookController.addBook req w).2
         = books w
           ++ [BookDoc.mk (next_id w) (Body.title (Req.body req))
                 (Body.author (Req.body req)) (Body.ISBN (Req.body req))
                 (now w) (now w)]).
Proof.
  unfold BookController.addBook, Book.findOne, Book.create.
  destruct (User.isModerator (Req.user req)); [|by left]. run. simpl.
  destruct (faults w) as [|[] [|[] fs]] eqn:Hf; simpl;
    try (destruct (List.find _ (books w)) eqn:Hfind; simpl; rewrite ?Hf);
    simpl; auto.
Qed.

(** [replace] keeps what the new document has in common with the one it
    takes the place of. *)
Lemma replace_fmap {A B} `{Document A} (g : A -> B) (d d0 : A) (l : list A) :
  List.find (has_id (document_id d)) l = Some d0 ->
  g d = g d0 ->
  g <$> replace d l = g <$> l.
Proof.
  intros Hfind Hg. induction l as [|x l IH]; [done|]. simpl in *.
  destruct (has_id (document_id d) x).
  - injection Hfind as ->. by rewrite !fmap_cons, Hg.
  - by rewrite !fmap_cons, IH.
Qed.

Lemma updateBook_ISBNs (req : Req.t) (w : World) :
  BookDoc.ISBN <$> books (BookController.updateBook req w).2
  = BookDoc.ISBN <$> books w.
Proof.
  destruct (List.find (has_id (Params.id (Req.params req))) (books w))
    as [book|] eqn:Hfind.
  - destruct (updateBook_books w req book Hfind) as [-> | ->]; [done|].
    destruct (find_id_some _ _ _ Hfind) as [_ Hid].
    apply (replace_fmap _ _ book); [|done].
    change (document_id (updated req w book)) with (document_id book).
    by rewrite Hid.
  - unfold BookController.updateBook, Book.findById. run. simpl.
    destruct (faults w) as [|[] fs]; simpl; rewrite ?Hfind; done.
Qed.

(** X9.  On a datastore that answers, [addBook] called by a moderator with
    an ISBN that no book has appends one book with the title, author and
    ISBN of the request and sends its identifier; the same request once more
    is then refused with the 409 error and changes nothing. *)
Theorem addBook_twice (req : Req.t) (w : World) :
  faults w = [] ->
  User.isModerator (Req.user req) = true ->
  Body.ISBN (Req.body req) ∉ BookDoc.ISBN <$> books w ->
  let w1 := (BookController.addBook req w).2 in
  (BookController.addBook req w).1
    = [Db Books op_findOne; Db Books op_create;
       Json 200 (book_id_payload "book successfully added" (next_id w))]
  /\ books w1
     = books w
       ++ [BookDoc.mk (next_id w) (Body.title (Req.body req))
             (Body.author (Req.body req)) (Body.ISBN (Req.body req))
             (now w) (now w)]
  /\ BookController.addBook req w1
     = ([Db Books op_findOne;
         Next (createError 409 "book already in collection")], w1).
Proof.
  intros Hup Hmod Hfresh w1. apply find_ISBN_none in Hfresh.
  assert (Hrun : BookController.addBook req w
    = ([Db Books op_findOne; Db Books op_create;
        Json 200 (book_id_payload "book successfully added" (next_id w))],
       tick (set_books
               (books w
                ++ [BookDoc.mk (next_id w) (Body.title (Req.body req))
                      (Body.author (Req.body req))
                      (Body.ISBN (Req.body req)) (now w) (now w)]) w))).
  { unfold BookController.addBook, Book.findOne, Book.create.
    rewrite Hmod. run. simpl. rewrite Hup. simpl. rewrite Hfresh. simpl.
    by rewrite Hup. }
  subst w1. rewrite Hrun. simpl. split; [done|]. split; [done|].
  unfold BookController.addBook, Book.findOne. rewrite Hmod. run. simpl.
  rewrite Hup. simpl.
  destruct (find_ISBN_exists (Body.ISBN (Req.body req))
              (books w
               ++ [BookDoc.mk (next_id w) (Body.title (Req.body req))
                     (Body.author (Req.body req))
                     (Body.ISBN (Req.body req)) (now w) (now w)]))
    as [d ->]; [|done].
  exists (BookDoc.mk (next_id w) (Body.title (Req.body req))
            (Body.author (Req.body req)) (Body.ISBN (Req.body req))
            (now w) (now w)).
  split; [|reflexivity]. apply elem_of_app. right.
  apply list_elem_of_In. by left.
Qed.

Lemma addBook_twice_witness :
  let req := Sample.request Sample.moderator 0
               (Body.mk (Some "Persuasion") (Some "Jane Austen") (Some "A3")
                  None None) None in
  let w1 := (BookController.addBook req Sample.world).2 in
  (BookController.addBook req Sample.world).1
    = [Db Books op_findOne; Db Books op_create;
       Json 200 (book_id_payload "book successfully added" 8)]
  /\ books w1
     = books Sample.world
       ++ [BookDoc.mk 8 (Some "Persuasion") (Some "Jane Austen") (Some "A3")
             13 13]
  /\ BookController.addBook req w1
     = ([Db Books op_findOne;
         Next (createError 409 "book already in collection")], w1).
Proof.
  intros req.
  apply (addBook_twice req Sample.world).
  - reflexivity.
  - reflexivity.
  - intros Hin. apply list_elem_of_In in Hin. simpl in Hin.
    intuition discriminate.
Defined.

(** X10.  When no two books of the collection have the same ISBN, none have
    after [addBook] and none have after [updateBook], for every request and
    whatever the datastore does. *)
Theorem ISBN_stays_unique (req : Req.t) (w : World) :
  NoDup (BookDoc.ISBN <$> books w) ->
  NoDup (BookDoc.ISBN <$> books (BookController.addBook req w).2)
  /\ NoDup (BookDoc.ISBN <$> books (BookController.updateBook req w).2).
Proof.
  intros Hnd. split.
  - destruct (addBook_books req w) as [-> | [Hnone ->]]; [done|].
    rewrite fmap_app. apply NoDup_app. split; [done|]. split.
    + intros isbn Hin Hnew. apply list_elem_of_In in Hnew. simpl in Hnew.
      destruct Hnew as [<- | []]. by apply find_ISBN_none in Hnone.
    + apply NoDup_singleton.
  - by rewrite updateBook_ISBNs.
Qed.

Lemma ISBN_stays_unique_witness :
  let req := Sample.request Sample.moderator 1
               (Body.mk (Some "Persuasion") (Some "Jane Austen") (Some "A3")
                  None None) None in
  NoDup (BookDoc.ISBN <$> books (BookController.addBook req Sample.world).2)
  /\ NoDup
       (BookDoc.ISBN <$> books (BookController.updateBook req Sample.world).2).
Proof.
  intros req. apply (ISBN_stays_unique req Sample.world).
  simpl. repeat constructor; intros Hin; apply list_elem_of_In in Hin;
    simpl in Hin; intuition discriminate.
Defined.

Lemma find_id_app_new {A} `{Document A} (d : A) (l : list A) :
  document_id d ∉ document_id <$> l ->
  List.find (has_id (document_id d)) (l ++ [d]) = Some d.
Proof.
  intros Hnew. induction l as [|x l IH]; simpl.
  - by rewrite (proj2 (has_id_true _ d)).
  - rewrite fmap_cons, not_elem_of_cons in Hnew. destruct Hnew as [Hx Hl].
    rewrite (proj2 (has_id_false (document_id d) x)) by done. by apply IH.
Qed.

Lemma category_names_none (w : World) (id : ObjectId) :
  id ∉ CategoryDoc.book_id <$> categories w -> category_names w id = [].
Proof.
  intros Hid. unfold category_names.
  assert (filter (fun c => CategoryDoc.book_id c = id) (categories w) = [])
    as ->; [|done].
  induction (categories w) as [|c l IH]; [done|].
  rewrite fmap_cons, not_elem_of_cons in Hid. destruct Hid as [Hc Hl].
  rewrite filter_cons_False by done. by apply IH.
Qed.

(** X11.  On a datastore that answers, after [addBook] by a moderator with
    an ISBN that no book has, [getBook] with the identifier that [addBook]
    sent back sends the profile of the new book: that identifier, the title,
    author and ISBN of the first request, and no categories.  The identifier
    is taken to be new: no book and no membership record has it yet. *)
Theorem addBook_then_getBook (req req' : Req.t) (w : World) :
  faults w = [] ->
  User.isModerator (Req.user req) = true ->
  Body.ISBN (Req.body req) ∉ BookDoc.ISBN <$> books w ->
  next_id w ∉ BookDoc._id <$> books w ->
  next_id w ∉ CategoryDoc.book_id <$> categories w ->
  Params.id (Req.params req') = next_id w ->
  let w1 := (BookController.addBook req w).2 in
  (BookController.addBook req w).1
    = [Db Books op_findOne; Db Books op_create;
       Json 200 (book_id_payload "book successfully added" (next_id w))]
  /\ BookController.getBook req' w1
     = ([Db Books op_findById; Db Categories op_distinct;
         Json 200
           (book_payload "successfully retrieved book"
              (Profile.mk (next_id w) (Body.title (Req.body req))
                 (Body.author (Req.body req)) (Body.ISBN (Req.body req))
                 []))], w1).
Proof.
  intros Hup Hmod Hfresh Hbook Hcat Hid w1. apply find_ISBN_none in Hfresh.
  set (book := BookDoc.mk (next_id w) (Body.title (Req.body req))
                 (Body.author (Req.body req)) (Body.ISBN (Req.body req))
                 (now w) (now w)).
  assert (Hrun : BookController.addBook req w
    = ([Db Books op_findOne; Db Books op_create;
        Json 200 (book_id_payload "book successfully added" (next_id w))],
       tick (set_books (books w ++ [book]) w))).
  { unfold BookController.addBook, Book.findOne, Book.create.
    rewrite Hmod. run. simpl. rewrite Hup. simpl. rewrite Hfresh. simpl.
    by rewrite Hup. }
  subst w1. rewrite Hrun. simpl. split; [done|].
  unfold BookController.getBook, handle, detach, catch_, then_ at 1.
  assert (Hf : List.find (has_id (next_id w)) (books w ++ [book])
               = Some book)
    by exact (find_id_app_new book (books w) Hbook).
  rewrite fetchBookProfile_up by done. rewrite Hid. simpl.
  rewrite Hf. unfold profile_of, BookController.toObject. simpl.
  by rewrite (category_names_none _ (next_id w)).
Qed.

Lemma addBook_then_getBook_witness :
  let req := Sample.request Sample.moderator 0
               (Body.mk (Some "Persuasion") (Some "Jane Austen") (Some "A3")
                  None None) None in
  let req' := Sample.request Sample.reader 8 Sample.no_body None in
  let w1 := (BookController.addBook req Sample.world).2 in
  (BookController.addBook req Sample.world).1
    = [Db Books op_findOne; Db Books op_create;
       Json 200 (book_id_payload "book successfully added" 8)]
  /\ BookController.getBook req' w1
     = ([Db Books op_findById; Db Categories op_distinct;
         Json 200
           (book_payload "successfully retrieved book"
              (Profile.mk 8 (Some "Persuasion") (Some "Jane Austen")
                 (Some "A3") []))], w1).
Proof.
  intros req req'.
  apply (addBook_then_getBook req req' Sample.world);
    try reflexivity;
    intros Hin; apply list_elem_of_In in Hin; simpl in Hin;
    intuition discriminate.
Defined.

(** X12.  When a book has the identifier of the request, on a datastore
    that answers, [updateBook] saves it and sends its identifier back, and a
    lookup then finds the book with the [title] and [author] of the request
    body, [None] for one the body does not have, and with the ISBN it had. *)
Theorem updateBook_overwrites (req : Req.t) (w : World) (book : BookDoc.t) :
  faults w = [] ->
  List.find (has_id (Params.id (Req.params req))) (books w) = Some book ->
  let w1 := (BookController.updateBook req w).2 in
  (BookController.updateBook req w).1
    = [Db Books op_findById; Db Books op_save;
       Json 200 (book_id_payload "book updated successfully"
                   (Params.id (Req.params req)))]
  /\ exists new : BookDoc.t,
       List.find (has_id (Params.id (Req.params req))) (books w1) = Some new
       /\ BookDoc.title new = Body.title (Req.body req)
       /\ BookDoc.author new = Body.author (Req.body req)
       /\ BookDoc.ISBN new = BookDoc.ISBN book
       /\ BookDoc.updatedAt new = now w.
Proof.
  intros Hup Hfind w1.
  destruct (find_id_some _ _ _ Hfind) as [_ Hid].
  assert (Hnew : document_id (updated req w book)
                 = Params.id (Req.params req)) by exact Hid.
  assert (Hrun : BookController.updateBook req w
    = ([Db Books op_findById; Db Books op_save;
        Json 200 (book_id_payload "book updated successfully"
                    (Params.id (Req.params req)))],
       tock (set_books (replace (updated req w book) (books w)) w))).
  { unfold BookController.updateBook, Book.findById, Book.save. run. simpl.
    rewrite Hup. simpl. rewrite Hfind. simpl. rewrite Hup. simpl.
    change (BookDoc._id book) with (document_id book). by rewrite Hid. }
  subst w1. rewrite Hrun. simpl. split; [done|].
  exists (updated req w book). split; [|done].
  rewrite <- Hnew. apply (find_replace _ book). by rewrite Hnew.
Qed.

Lemma updateBook_overwrites_witness :
  let req := Sample.request Sample.reader 2
               (Body.mk (Some "Emma, annotated") None None None None) None in
  let w1 := (BookController.updateBook req Sample.world).2 in
  (BookController.updateBook req Sample.world).1
    = [Db Books op_findById; Db Books op_save;
       Json 200 (book_id_payload "book updated successfully" 2)]
  /\ exists new : BookDoc.t,
       List.find (has_id 2) (books w1) = Some new
       /\ BookDoc.title new = Some "Emma, annotated"
       /\ BookDoc.author new = None
       /\ BookDoc.ISBN new = BookDoc.ISBN Sample.emma
       /\ BookDoc.updatedAt new = now Sample.world.
Proof.
  intros req.
  apply (updateBook_overwrites req Sample.world Sample.emma); reflexivity.
Defined.

(** ** The listings of bookings *)

Lemma newer_first_total : Total Booking.newer_first.
Proof. intros a b. unfold Booking.newer_first. lia. Qed.

Lemma newer_first_trans : Transitive Booking.newer_first.
Proof. intros a b c. unfold Booking.newer_first. lia. Qed.

Lemma Booking_find_up (conditions : BookingDoc.t -> bool) (w : World) :
  faults w = [] ->
  Booking.find conditions w
  = (Fulfilled (listing conditions w), w, [Db Bookings op_find]).
Proof.
  intros Hup. unfold Booking.find, then_, read.
  by rewrite (call_up _ _ w Hup).
Qed.

(** What is in a listing, and in which order. *)
Lemma listing_spec (conditions : BookingDoc.t -> bool) (w : World) :
  listing conditions w ≡ₚ List.filter conditions (bookings w)
  /\ (forall b, b ∈ listing conditions w
                <-> b ∈ bookings w /\ conditions b = true)
  /\ StronglySorted Booking.newer_first (listing conditions w).
Proof.
  unfold listing. split; [apply merge_sort_Permutation|]. split.
  - intros b. rewrite merge_sort_Permutation.
    rewrite !list_elem_of_In. apply filter_In.
  - pose proof newer_first_total. pose proof newer_first_trans.
    apply StronglySorted_merge_sort; apply _.
Qed.

(** X13.  On a datastore that answers, [getBookingsByUser] sends with
    status 200 the bookings whose [user_id] is the caller's [_id], all of
    them and no booking of another user, each as often as it is in the
    collection, the most recently updated first.  The world is as it was. *)
Theorem getBookingsByUser_own (req : Req.t) (w : World) :
  faults w = [] ->
  exists mine : list BookingDoc.t,
    BookingController.getBookingsByUser req w
    = ([Db Bookings op_find;
        Json 200 (bookings_payload "succesfully retrieved user bookings"
                    (Some mine))], w)
    /\ mine ≡ₚ List.filter
                 (fun d => Nat.eqb (BookingDoc.user_id d)
                             (User._id (Req.user req)))
                 (bookings w)
    /\ (forall b, b ∈ mine
                  <-> b ∈ bookings w
                      /\ BookingDoc.user_id b = User._id (Req.user req))
    /\ StronglySorted Booking.newer_first mine.
Proof.
  intros Hup. eexists. split.
  - unfold BookingController.getBookingsByUser, handle, detach, catch_,
      then_ at 1.
    rewrite Booking_find_up by done. reflexivity.
  - destruct (listing_spec
                (fun d => Nat.eqb (BookingDoc.user_id d)
                            (User._id (Req.user req))) w)
      as (Hperm & Helem & Hsorted).
    split; [done|]. split; [|done].
    intros b. rewrite Helem. by rewrite Nat.eqb_eq.
Qed.

Lemma getBookingsByUser_own_witness :
  exists mine : list BookingDoc.t,
    BookingController.getBookingsByUser
      (Sample.request Sample.reader 0 Sample.no_body None) Sample.world
    = ([Db Bookings op_find;
        Json 200 (bookings_payload "succesfully retrieved user bookings"
                    (Some mine))], Sample.world)
    /\ mine ≡ₚ List.filter
                 (fun d => Nat.eqb (BookingDoc.user_id d) 20)
                 (bookings Sample.world)
    /\ (forall b, b ∈ mine
                  <-> b ∈ bookings Sample.world
                      /\ BookingDoc.user_id b = 20)
    /\ StronglySorted Booking.newer_first mine.
Proof.
  apply (getBookingsByUser_own
           (Sample.request Sample.reader 0 Sample.no_body None)
           Sample.world).
  reflexivity.
Defined.

(** X14.  On a datastore that answers, for a moderator, [getAllBookings]
    sends with status 200 all the bookings of the collection, the most
    recently updated first, and [getBookingsWithStatus] sends those whose
    [status] is the status of the request, and no other, in that order.  The
    world is as it was. *)
Theorem moderator_listings (req : Req.t) (w : World) :
  faults w = [] ->
  User.isModerator (Req.user req) = true ->
  (exists every : list BookingDoc.t,
     BookingController.getAllBookings req w
     = ([Db Bookings op_find;
         Json 200 (bookings_payload "succesfully retrieved bookings"
                     (Some every))], w)
     /\ every ≡ₚ bookings w
     /\ StronglySorted Booking.newer_first every)
  /\ (exists some : list BookingDoc.t,
        BookingController.getBookingsWithStatus req w
        = ([Db Bookings op_find;
            Json 200 (bookings_payload "succesfully retrieved bookings"
                        (Some some))], w)
        /\ (forall b, b ∈ some
                      <-> b ∈ bookings w
                          /\ BookingDoc.status b
                             = Params.status (Req.params req))
        /\ StronglySorted Booking.newer_first some).
Proof.
  intros Hup Hmod. split; eexists; (split; [|split]).
  - unfold BookingController.getAllBookings, handle, detach, catch_,
      then_ at 1.
    rewrite Hmod. simpl. rewrite Booking_find_up by done. reflexivity.
  - destruct (listing_spec (fun _ => true) w) as (Hperm & _).
    rewrite Hperm. clear. induction (bookings w) as [|b l IH]; [done|].
    simpl. by rewrite IH.
  - apply listing_spec.
  - unfold BookingController.getBookingsWithStatus, handle, detach, catch_,
      then_ at 1.
    rewrite Hmod. simpl. rewrite Booking_find_up by done. reflexivity.
  - intros b.
    destruct (listing_spec
                (fun d => bool_decide
                            (BookingDoc.status d
                             = Params.status (Req.params req))) w)
      as (_ & Helem & _).
    rewrite Helem. by rewrite bool_decide_eq_true.
  - apply listing_spec.
Qed.

Lemma moderator_listings_witness :
  let req := Sample.request Sample.moderator 0 Sample.no_body None in
  (exists every : list BookingDoc.t,
     BookingController.getAllBookings req Sample.world
     = ([Db Bookings op_find;
         Json 200 (bookings_payload "succesfully retrieved bookings"
                     (Some every))], Sample.world)
     /\ every ≡ₚ bookings Sample.world
     /\ StronglySorted Booking.newer_first every)
  /\ (exists some : list BookingDoc.t,
        BookingController.getBookingsWithStatus req Sample.world
        = ([Db Bookings op_find;
            Json 200 (bookings_payload "succesfully retrieved bookings"
                        (Some some))], Sample.world)
        /\ (forall b, b ∈ some
                      <-> b ∈ bookings Sample.world
                          /\ BookingDoc.status b
                             = Params.status (Req.params req))
        /\ StronglySorted Booking.newer_first some).
Proof.
  intros req. apply (moderator_listings req Sample.world); reflexivity.
Defined.

(** X15.  On a datastore that answers, [getUserBookingsForBook] passes the
    404 error to [next], without a look at the bookings, when no book has
    the identifier of the request; when one has, it sends with status 200
    the bookings of the caller for that book, and no other, the most
    recently updated first.  The world is as it was. *)
Theorem getUserBookingsForBook_own (req : Req.t) (w : World) :
  faults w = [] ->
  match List.find (has_id (Params.id (Req.params req))) (books w) with
  | None =>
      BookingController.getUserBookingsForBook req w
      = ([Db Books op_findById;
          Next (createError 404 "book does not exist")], w)
  | Some _ =>
      exists mine : list BookingDoc.t,
        BookingController.getUserBookingsForBook req w
        = ([Db Books op_findById; Db Bookings op_find;
            Json 200
              (bookings_payload
                 "succesfully retrieved user bookings for book"
                 (Some mine))], w)
        /\ (forall b, b ∈ mine
                      <-> b ∈ bookings w
                          /\ BookingDoc.user_id b = User._id (Req.user req)
                          /\ BookingDoc.book_id b
                             = Params.id (Req.params req))
        /\ StronglySorted Booking.newer_first mine
  end.
Proof.
  intros Hup.
  unfold BookingController.getUserBookingsForBook, Book.findById.
  unfold handle, detach, catch_, then_, read. simpl.
  rewrite (call_up _ _ w Hup). simpl.
  destruct (List.find _ (books w)) as [book|]; [|done].
  rewrite !Booking_find_up by done. simpl.
  eexists. split; [reflexivity|]. split; [|apply listing_spec].
  intros b.
  destruct (listing_spec
              (fun d => Nat.eqb (BookingDoc.user_id d)
                          (User._id (Req.user req))
                        && Nat.eqb (BookingDoc.book_id d)
                             (Params.id (Req.params req))) w)
    as (_ & Helem & _).
  rewrite Helem, andb_true_iff, !Nat.eqb_eq. tauto.
Qed.

Lemma getUserBookingsForBook_own_witness :
  exists mine : list BookingDoc.t,
    BookingController.getUserBookingsForBook
      (Sample.request Sample.reader 1 Sample.no_body None) Sample.world
    = ([Db Books op_findById; Db Bookings op_find;
        Json 200
          (bookings_payload "succesfully retrieved user bookings for book"
             (Some mine))], Sample.world)
    /\ (forall b, b ∈ mine
                  <-> b ∈ bookings Sample.world
                      /\ BookingDoc.user_id b = 20
                      /\ BookingDoc.book_id b = 1)
    /\ StronglySorted Booking.newer_first mine.
Proof.
  apply (getUserBookingsForBook_own
           (Sample.request Sample.reader 1 Sample.no_body None)
           Sample.world).
  reflexivity.
Defined.

(** X16.  On a datastore that answers, for a moderator,
    [getAllBookingsForBook] passes the 404 error to [next], without a look
    at the bookings, when no book has the identifier of the request; when
    one has, it sends with status 200 the bookings of all users for that
    book, and no other, the most recently updated first.  The world is as it
    was. *)
Theorem getAllBookingsForBook_all (req : Req.t) (w : World) :
  faults w = [] ->
  User.isModerator (Req.user req) = true ->
  match List.find (has_id (Params.id (Req.params req))) (books w) with
  | None =>
      BookingController.getAllBookingsForBook req w
      = ([Db Books op_findById;
          Next (createError 404 "book does not exist")], w)
  | Some _ =>
      exists every : list BookingDoc.t,
        BookingController.getAllBookingsForBook req w
        = ([Db Books op_findById; Db Bookings op_find;
            Json 200
              (bookings_payload
                 "succesfully retrieved user bookings for book"
                 (Some every))], w)
        /\ (forall b, b ∈ every
                      <-> b ∈ bookings w
                          /\ BookingDoc.book_id b
                             = Params.id (Req.params req))
        /\ StronglySorted Booking.newer_first every
  end.
Proof.
  intros Hup Hmod.
  unfold BookingController.getAllBookingsForBook, Book.findById.
  rewrite Hmod. unfold handle, detach, catch_, then_, read. simpl.
  rewrite (call_up _ _ w Hup). simpl.
  destruct (List.find _ (books w)) as [book|]; [|done].
  rewrite !Booking_find_up by done. simpl.
  eexists. split; [reflexivity|]. split; [|apply listing_spec].
  intros b.
  destruct (listing_spec
              (fun d => Nat.eqb (BookingDoc.book_id d)
                          (Params.id (Req.params req))) w)
    as (_ & Helem & _).
  rewrite Helem, Nat.eqb_eq. tauto.
Qed.

Lemma getAllBookingsForBook_all_witness :
  BookingController.getAllBookingsForBook
    (Sample.request Sample.moderator 9 Sample.no_body None) Sample.world
  = ([Db Books op_findById;
      Next (createError 404 "book does not exist")], Sample.world).
Proof.
  apply (getAllBookingsForBook_all
           (Sample.request Sample.moderator 9 Sample.no_body None)
           Sample.world); reflexivity.
Defined.

(** ** When the datastore fails *)

(** X17.  When the call to the datastore fails, the three plain listings
    pass the error to [next] and then, the [.then] coming after the
    [.catch], still send status 200, with no [bookings] in it:
    [getBookingsByUser] for every caller, [getAllBookings] and
    [getBookingsWithStatus] for a moderator (for another caller they stop at
    the 403 error, the datastore not called). *)
Theorem listings_answer_twice (req : Req.t) (w : World) (fs : list bool) :
  faults w = true :: fs ->
  BookingController.getBookingsByUser req w
  = ([Db Bookings op_find; Next DbError;
      Json 200 (bookings_payload "succesfully retrieved user bookings"
                  None)], set_faults fs w)
  /\ BookingController.getAllBookings req w
     = (if User.isModerator (Req.user req)
        then ([Db Bookings op_find; Next DbError;
               Json 200 (bookings_payload "succesfully retrieved bookings"
                           None)], set_faults fs w)
        else ([Next BookingController.forbidden], w))
  /\ BookingController.getBookingsWithStatus req w
     = (if User.isModerator (Req.user req)
        then ([Db Bookings op_find; Next DbError;
               Json 200 (bookings_payload "succesfully retrieved bookings"
                           None)], set_faults fs w)
        else ([Next BookingController.forbidden], w)).
Proof.
  intros Hf.
  unfold BookingController.getBookingsByUser,
    BookingController.getAllBookings,
    BookingController.getBookingsWithStatus, Booking.find.
  destruct (User.isModerator (Req.user req)); run; simpl; rewrite Hf; done.
Qed.

Lemma listings_answer_twice_witness :
  let req := Sample.request Sample.moderator 0 Sample.no_body None in
  let w := set_faults [true] Sample.world in
  BookingController.getBookingsByUser req w
  = ([Db Bookings op_find; Next DbError;
      Json 200 (bookings_payload "succesfully retrieved user bookings"
                  None)], Sample.world)
  /\ BookingController.getAllBookings req w
     = ([Db Bookings op_find; Next DbError;
         Json 200 (bookings_payload "succesfully retrieved bookings"
                     None)], Sample.world)
  /\ BookingController.getBookingsWithStatus req w
     = ([Db Bookings op_find; Next DbError;
         Json 200 (bookings_payload "succesfully retrieved bookings"
                     None)], Sample.world).
Proof.
  intros req w. apply (listings_answer_twice req w []). reflexivity.
Defined.

(** X18.  When the lookup of the book fails, [getUserBookingsForBook]
    passes the error to [next] and then, the [.then] coming after the
    [.catch], passes the 404 error to [next] as well; [getAllBookingsForBook]
    does the same for a moderator.  The bookings are not looked at. *)
Theorem book_listings_call_next_twice (req : Req.t) (w : World)
  (fs : list bool) :
  faults w = true :: fs ->
  BookingController.getUserBookingsForBook req w
  = ([Db Books op_findById; Next DbError;
      Next (createError 404 "book does not exist")], set_faults fs w)
  /\ BookingController.getAllBookingsForBook req w
     = (if User.isModerator (Req.user req)
        then ([Db Books op_findById; Next DbError;
               Next (createError 404 "book does not exist")],
              set_faults fs w)
        else ([Next BookingController.forbidden], w)).
Proof.
  intros Hf.
  unfold BookingController.getUserBookingsForBook,
    BookingController.getAllBookingsForBook, Book.findById.
  destruct (User.isModerator (Req.user req)); run; simpl; rewrite Hf; done.
Qed.

Lemma book_listings_call_next_twice_witness :
  let req := Sample.request Sample.moderator 1 Sample.no_body None in
  let w := set_faults [true] Sample.world in
  BookingController.getUserBookingsForBook req w
  = ([Db Books op_findById; Next DbError;
      Next (createError 404 "book does not exist")], Sample.world)
  /\ BookingController.getAllBookingsForBook req w
     = ([Db Books op_findById; Next DbError;
         Next (createError 404 "book does not exist")], Sample.world).
Proof.
  intros req w. apply (book_listings_call_next_twice req w []). reflexivity.
Defined.

(** X19.  When the first call to the datastore fails, [addBooking] and
    [updateBooking] pass the error to [next] and then throw a TypeError in
    the [.then] that comes after the [.catch], on the booking that is not
    there: the rejection is unhandled.  No booking is stored or changed. *)
Theorem booking_writes_fault (req : Req.t) (w : World) (fs : list bool) :
  faults w = true :: fs ->
  BookingController.addBooking req w
  = ([Db Bookings op_create; Next DbError; UnhandledRejection TypeError],
     set_faults fs w)
  /\ BookingController.updateBooking req w
     = ([Db Bookings op_findById; Next DbError;
         UnhandledRejection TypeError], set_faults fs w).
Proof.
  intros Hf.
  unfold BookingController.addBooking, BookingController.updateBooking,
    Booking.create, Booking.findById.
  run. simpl. by rewrite Hf.
Qed.

Lemma booking_writes_fault_witness :
  let req := Sample.request Sample.reader 7
               (Body.mk None None None (Some 1%Z) None) None in
  BookingController.addBooking req (set_faults [true] Sample.world)
  = ([Db Bookings op_create; Next DbError; UnhandledRejection TypeError],
     Sample.world)
  /\ BookingController.updateBooking req (set_faults [true] Sample.world)
     = ([Db Bookings op_findById; Next DbError;
         UnhandledRejection TypeError], Sample.world).
Proof.
  intros req.
  apply (booking_writes_fault req (set_faults [true] Sample.world) []).
  reflexivity.
Defined.

(** X20.  When the booking is found and the datastore then fails to save
    it, [updateBooking] passes the error to [next] and then throws a
    TypeError in the [.then] that comes after the [.catch]: the rejection is
    unhandled, and the bookings are as they were. *)
Theorem updateBooking_save_fault (req : Req.t) (w : World) (fs : list bool)
  (booking : BookingDoc.t) :
  faults w = false :: true :: fs ->
  List.find (has_id (Params.id (Req.params req))) (bookings w)
    = Some booking ->
  BookingController.updateBooking req w
  = ([Db Bookings op_findById; Db Bookings op_save; Next DbError;
      UnhandledRejection TypeError], set_faults fs w).
Proof.
  intros Hf Hfind.
  unfold BookingController.updateBooking, Booking.findById, Booking.save.
  run. simpl. rewrite Hf. simpl. by rewrite Hfind.
Qed.

Lemma updateBooking_save_fault_witness :
  BookingController.updateBooking
    (Sample.request Sample.reader 7
       (Body.mk None None None (Some 5%Z) (Some "approved")) None)
    (set_faults [false; true] Sample.world)
  = ([Db Bookings op_findById; Db Bookings op_save; Next DbError;
      UnhandledRejection TypeError], Sample.world).
Proof.
  apply (updateBooking_save_fault _ (set_faults [false; true] Sample.world)
           [] Sample.order); reflexivity.
Defined.

(** ** What an update of a booking leaves alone *)

(** The booking [updateBooking] writes back, if it gets that far. *)
Lemma updateBooking_bookings (req : Req.t) (w : World) :
  bookings (BookingController.updateBooking req w).2 = bookings w
  \/ exists old : BookingDoc.t,
       List.find (has_id (Params.id (Req.params req))) (bookings w)
         = Some old
       /\ bookings (BookingController.updateBooking req w).2
          = replace
              (BookingDoc.set_updatedAt (now w)
                 (BookingDoc.set_status (Body.status (Req.body req))
                    (BookingDoc.set_quantity (Body.quantity (Req.body req))
                       old)))
              (bookings w).
Proof.
  unfold BookingController.updateBooking, Booking.findById, Booking.save.
  run. simpl.
  destruct (faults w) as [|[] [|[] fs]] eqn:Hf; simpl;
    try (destruct (List.find _ (bookings w)) eqn:Hfind; simpl; rewrite ?Hf);
    simpl; eauto.
Qed.

(** X21.  [updateBooking] changes neither who the bookings are of nor what
    they are for: after it, for every request and whatever the datastore
    does, the collection has the same bookings in the same places by
    identifier, user, book and creation time. *)
Theorem updateBooking_keeps_owner (req : Req.t) (w : World) :
  let w1 := (BookingController.updateBooking req w).2 in
  BookingDoc._id <$> bookings w1 = BookingDoc._id <$> bookings w
  /\ BookingDoc.user_id <$> bookings w1 = BookingDoc.user_id <$> bookings w
  /\ BookingDoc.book_id <$> bookings w1 = BookingDoc.book_id <$> bookings w
  /\ BookingDoc.createdAt <$> bookings w1
     = BookingDoc.createdAt <$> bookings w.
Proof.
  intros w1. subst w1.
  destruct (updateBooking_bookings req w) as [-> | (old & Hfind & ->)];
    [done|].
  destruct (find_id_some _ _ _ Hfind) as [_ Hid].
  repeat split; apply (replace_fmap _ _ old); try done;
    by change (document_id (BookingDoc.set_updatedAt _ _))
         with (document_id old); rewrite Hid.
Qed.
